(** * PyShell window-management core: a shallow embedding

    The development follows [SDUX_DE_ALPHA_1.0.py].  The classes
    [InternalWindow], [WorkspaceManager] and [PyShellApp] become records,
    their methods become functions on those records, and the part of the
    Qt toolkit the methods call (widget geometry, stacking order, keyboard
    focus) is modelled in [Module Qt] and in the widget fields of the
    records.

    Modelling conventions:
    - Python integers and Qt coordinates are [Z]; pointer positions and
      widget sizes stay far inside Qt's [int] range, so no wrap-around is
      written out.
    - A widget object is referred to by a handle (a [nat]); the live
      [InternalWindow] objects form a finite map from handles to records.
    - A method that can raise returns a [result]; a [try/except] block is
      a [match] on that result.
    - Painting and timers are not modelled.  What the toolkit computes
      out of the shell's sight (the bounds a layout gives its widgets,
      the widget that takes focus when a page is switched) is a field of
      the state, [toolkit]; what the toolkit does between two events (a
      layout pass, the deletion of a closed widget) is a step of its
      own. *)

From Stdlib Require Import ZArith Lia Ascii.
From stdpp Require Import base gmap list strings pretty.

Local Open Scope Z_scope.

(** ** Exceptions and results *)

Inductive exn : Type :=
  | IndexError
  | ZeroDivisionError
  | TypeError
  | RuntimeError
  | PopenError (msg : string).

(** [str(e)] as used for the text of a notification. *)
Definition exn_str (e : exn) : string :=
  match e with
  | IndexError => "list index out of range"
  | ZeroDivisionError => "integer division or modulo by zero"
  | TypeError => "unsupported operand type(s)"
  | RuntimeError => "wrapped C/C++ object has been deleted"
  | PopenError msg => msg
  end.

Inductive result (A : Type) : Type :=
  | Ok (a : A)
  | Raise (e : exn).
Arguments Ok {A} a.
Arguments Raise {A} e.

Definition rbind {A B} (m : result A) (k : A -> result B) : result B :=
  match m with
  | Ok a => k a
  | Raise e => Raise e
  end.

Notation "'let!' x ':=' m 'in' k" := (rbind m (fun x => k))
  (at level 10, x name, m at level 100, k at level 200).

(** ** The part of Qt the shell relies on *)

Module Qt.

Record QPoint := mkPoint { px : Z; py : Z }.
Record QSize := mkSize { sz_width : Z; sz_height : Z }.
Record QRect := mkRect { rx : Z; ry : Z; rwidth : Z; rheight : Z }.

(** [QRect()] : the null rectangle. *)
Definition null_rect : QRect := mkRect 0 0 0 0.

Definition topLeft (r : QRect) : QPoint := mkPoint (rx r) (ry r).
Definition size (r : QRect) : QSize := mkSize (rwidth r) (rheight r).

(** [p - q] on points. *)
Definition psub (p q : QPoint) : QPoint :=
  mkPoint (px p - px q) (py p - py q).

Inductive MouseButton := LeftButton | RightButton | MidButton.

(** A mouse event: the button, the position local to the receiving
    widget ([ev.x()], [ev.y()]) and the position on the screen
    ([ev.globalPos()]). *)
Record QMouseEvent := mkMouseEvent {
  button : MouseButton;
  ev_x : Z;
  ev_y : Z;
  globalPos : QPoint
}.

Definition is_left (b : MouseButton) : bool :=
  match b with LeftButton => true | _ => false end.

End Qt.
Import Qt.

(** ** Constants *)

Definition PANEL_HEIGHT : Z := 48.
Definition DOCK_WIDTH : Z := 64.
Definition WORKSPACE_COUNT : Z := 4.

(** [self.titlebar.setFixedHeight(32)], so [self.titlebar.height()] is 32. *)
Definition titlebar_height : Z := 32.

(** ** InternalWindow *)

Definition handle := nat.

Record InternalWindow := mkInternalWindow {
  title : string;
  (** the workspace canvas the widget is a child of, by its index *)
  parent : option nat;
  (** QWidget state; [visible] tells whether the widget was shown and
      not hidden since (whether it is on screen also depends on its
      page being the one on display) *)
  geometry : QRect;
  fixed_size : option QSize;
  visible : bool;
  (** state *)
  is_maximized : bool;
  prev_geometry : QRect;
  (** interactions *)
  _dragging : bool;
  _drag_offset : option QPoint;
  _resizing : bool;
  _resize_start : option QPoint;
  _resize_initial_geom : option QRect
}.

(** [InternalWindow.__init__]: a child widget of [parent], resized to
    640x360, not yet shown, no gesture in progress. *)
Definition InternalWindow_init (ttl : string) (par : option nat) : InternalWindow :=
  {| title := ttl; parent := par;
     geometry := mkRect 0 0 640 360; fixed_size := None; visible := false;
     is_maximized := false; prev_geometry := null_rect;
     _dragging := false; _drag_offset := None;
     _resizing := false; _resize_start := None; _resize_initial_geom := None |}.

(** *** Widget primitives *)

Definition width (self : InternalWindow) : Z := rwidth (geometry self).
Definition height (self : InternalWindow) : Z := rheight (geometry self).

(** A child widget has no window frame: [frameGeometry()] is [geometry()]. *)
Definition frameGeometry (self : InternalWindow) : QRect := geometry self.

Definition set_geometry_raw (g : QRect) (self : InternalWindow) : InternalWindow :=
  {| title := title self; parent := parent self;
     geometry := g; fixed_size := fixed_size self; visible := visible self;
     is_maximized := is_maximized self; prev_geometry := prev_geometry self;
     _dragging := _dragging self; _drag_offset := _drag_offset self;
     _resizing := _resizing self; _resize_start := _resize_start self;
     _resize_initial_geom := _resize_initial_geom self |}.

(** [self.move(p)]: new origin, same size. *)
Definition move (p : QPoint) (self : InternalWindow) : InternalWindow :=
  set_geometry_raw (mkRect (px p) (py p) (width self) (height self)) self.

(** [self.setGeometry(r)]: a size fixed by [setFixedSize] is kept, since
    minimum and maximum size then coincide; the origin is always taken. *)
Definition setGeometry (r : QRect) (self : InternalWindow) : InternalWindow :=
  match fixed_size self with
  | Some f => set_geometry_raw (mkRect (rx r) (ry r) (sz_width f) (sz_height f)) self
  | None => set_geometry_raw r self
  end.

(** [self.setFixedSize(w, h)]: minimum and maximum size become [(w, h)]
    and the widget is resized to it; the origin stays.  The sizes passed
    are at least 200x100 and stay below Qt's largest widget size. *)
Definition setFixedSize (w h : Z) (self : InternalWindow) : InternalWindow :=
  {| title := title self; parent := parent self;
     geometry := mkRect (rx (geometry self)) (ry (geometry self)) w h;
     fixed_size := Some (mkSize w h); visible := visible self;
     is_maximized := is_maximized self; prev_geometry := prev_geometry self;
     _dragging := _dragging self; _drag_offset := _drag_offset self;
     _resizing := _resizing self; _resize_start := _resize_start self;
     _resize_initial_geom := _resize_initial_geom self |}.

Definition set_visible (b : bool) (self : InternalWindow) : InternalWindow :=
  {| title := title self; parent := parent self;
     geometry := geometry self; fixed_size := fixed_size self; visible := b;
     is_maximized := is_maximized self; prev_geometry := prev_geometry self;
     _dragging := _dragging self; _drag_offset := _drag_offset self;
     _resizing := _resizing self; _resize_start := _resize_start self;
     _resize_initial_geom := _resize_initial_geom self |}.

Definition set_parent (p : option nat) (self : InternalWindow) : InternalWindow :=
  {| title := title self; parent := p;
     geometry := geometry self; fixed_size := fixed_size self; visible := visible self;
     is_maximized := is_maximized self; prev_geometry := prev_geometry self;
     _dragging := _dragging self; _drag_offset := _drag_offset self;
     _resizing := _resizing self; _resize_start := _resize_start self;
     _resize_initial_geom := _resize_initial_geom self |}.

(** *** Mouse handlers *)

(** [mousePressEvent]: the boolean tells whether the handler accepted the
    event ([true]) or handed it to [super().mousePressEvent] ([false]). *)
Definition mousePressEvent (ev : QMouseEvent) (self : InternalWindow)
  : InternalWindow * bool :=
  if is_left (button ev) then
    let local_y := ev_y ev in
    if local_y <=? titlebar_height then
      ({| title := title self; parent := parent self;
          geometry := geometry self; fixed_size := fixed_size self;
          visible := visible self;
          is_maximized := is_maximized self; prev_geometry := prev_geometry self;
          _dragging := true;
          _drag_offset := Some (psub (globalPos ev) (topLeft (frameGeometry self)));
          _resizing := _resizing self; _resize_start := _resize_start self;
          _resize_initial_geom := _resize_initial_geom self |}, true)
    else if (width self - 12 <=? ev_x ev) && (height self - 12 <=? ev_y ev) then
      ({| title := title self; parent := parent self;
          geometry := geometry self; fixed_size := fixed_size self;
          visible := visible self;
          is_maximized := is_maximized self; prev_geometry := prev_geometry self;
          _dragging := _dragging self; _drag_offset := _drag_offset self;
          _resizing := true;
          _resize_start := Some (globalPos ev);
          _resize_initial_geom := Some (geometry self) |}, true)
    else (self, false)
  else (self, false).

(** [mouseMoveEvent]: subtracting [None] from a point is a [TypeError]. *)
Definition mouseMoveEvent (ev : QMouseEvent) (self : InternalWindow)
  : result (InternalWindow * bool) :=
  if _dragging self then
    match _drag_offset self with
    | Some off =>
        let new_top_left := psub (globalPos ev) off in
        Ok (move new_top_left self, true)
    | None => Raise TypeError
    end
  else
    match _resizing self, _resize_initial_geom self with
    | true, Some init =>
        match _resize_start self with
        | Some start =>
            let delta := psub (globalPos ev) start in
            let new_w := Z.max 200 (rwidth init + px delta) in
            let new_h := Z.max 100 (rheight init + py delta) in
            Ok (setFixedSize new_w new_h self, true)
        | None => Raise TypeError
        end
    | _, _ => Ok (self, false)
    end.

Definition mouseReleaseEvent (ev : QMouseEvent) (self : InternalWindow)
  : InternalWindow :=
  {| title := title self; parent := parent self;
     geometry := geometry self; fixed_size := fixed_size self; visible := visible self;
     is_maximized := is_maximized self; prev_geometry := prev_geometry self;
     _dragging := false; _drag_offset := _drag_offset self;
     _resizing := false; _resize_start := _resize_start self;
     _resize_initial_geom := _resize_initial_geom self |}.

(** *** Window controls *)

Definition on_min (self : InternalWindow) : InternalWindow :=
  set_visible false self.

(** [on_max]: [parent_geom] is the geometry of the parent canvas (or of
    the primary screen when the window has no parent). *)
Definition on_max (parent_geom : QRect) (self : InternalWindow) : InternalWindow :=
  if negb (is_maximized self) then
    let saved := geometry self in
    let self1 :=
      setGeometry (mkRect 10 (PANEL_HEIGHT + 10)
                          (rwidth parent_geom - 20)
                          (rheight parent_geom - PANEL_HEIGHT - 20)) self in
    {| title := title self1; parent := parent self1;
       geometry := geometry self1; fixed_size := fixed_size self1;
       visible := visible self1;
       is_maximized := true; prev_geometry := saved;
       _dragging := _dragging self1; _drag_offset := _drag_offset self1;
       _resizing := _resizing self1; _resize_start := _resize_start self1;
       _resize_initial_geom := _resize_initial_geom self1 |}
  else
    let self1 := setGeometry (prev_geometry self) self in
    {| title := title self1; parent := parent self1;
       geometry := geometry self1; fixed_size := fixed_size self1;
       visible := visible self1;
       is_maximized := false; prev_geometry := prev_geometry self1;
       _dragging := _dragging self1; _drag_offset := _drag_offset self1;
       _resizing := _resizing self1; _resize_start := _resize_start self1;
       _resize_initial_geom := _resize_initial_geom self1 |}.

(** Pointer moves delivered to one window with nothing in between, as
    during a drag ([move] leaves the layout of the canvas alone); a
    raising handler ends the sequence with its exception.  The moves of
    a resize are not of this kind: each [setFixedSize] invalidates the
    layout of the canvas, whose pass comes before the next move (see
    [resize_moves_on]). *)
Fixpoint pointer_moves (evs : list QMouseEvent) (self : InternalWindow)
  : result InternalWindow :=
  match evs with
  | [] => Ok self
  | ev :: rest =>
      let! r := mouseMoveEvent ev self in
      pointer_moves rest (fst r)
  end.

(** ** What the toolkit decides *)

(** The bounds a layout gives its widgets, and the widget that takes
    keyboard focus when the stacked layout changes page or when the
    focused widget is hidden, are computed by Qt from size hints, fonts,
    the display and its own focus chain, none of which the shell's code
    sees.  They are given functions. *)
Record Toolkit := mkToolkit {
  (** the bounds the layout of canvas [n], holding [items], gives to
      window [h] *)
  place : nat -> list handle -> gmap handle InternalWindow -> handle -> QRect;
  (** the window that holds keyboard focus, if any, once the stacked
      layout has gone from page [old] to page [new] *)
  refocus : Z -> Z -> option handle -> gmap handle InternalWindow -> option handle;
  (** the window that holds keyboard focus, if any, once window [h] has
      been hidden *)
  unfocus : handle -> option handle -> gmap handle InternalWindow -> option handle
}.

(** A toolkit whose layouts leave every widget where it is, whose
    stacked layout leaves focus alone, and which gives the focus of a
    hidden window to no other window. *)
Definition static_toolkit : Toolkit :=
  {| place := fun n items objs h =>
       match objs !! h with
       | Some w => geometry w
       | None => null_rect
       end;
     refocus := fun old new f objs => f;
     unfocus := fun h f objs => if decide (f = Some h) then None else f |}.

(** ** Python sequences *)

(** [l[i]]: a negative index counts from the end, an index outside
    [-len, len) raises [IndexError].  The result is the position looked
    at, counted from the front. *)
Definition py_position (len : nat) (i : Z) : result nat :=
  if (0 <=? i) && (i <? Z.of_nat len) then Ok (Z.to_nat i)
  else if (- Z.of_nat len <=? i) && (i <? 0) then Ok (Z.to_nat (Z.of_nat len + i))
  else Raise IndexError.

Definition py_index {A} (l : list A) (i : Z) : result A :=
  let! n := py_position (length l) i in
  match l !! n with
  | Some a => Ok a
  | None => Raise IndexError
  end.

(** [deque(maxlen=n).append(x)]: the oldest entry is dropped when full. *)
Definition deque_append {A} (maxlen : nat) (x : A) (d : list A) : list A :=
  let d' := d ++ [x] in
  drop (length d' - maxlen)%nat d'.

(** [str.lower()] on the ASCII letters; other bytes are kept.  The four
    internal kinds are spelled with ASCII letters that only ASCII capitals
    lower to, so this decides the kind as Python does. *)
Definition lower_ascii (c : ascii) : ascii :=
  let n := nat_of_ascii c in
  if ((65 <=? n) && (n <=? 90))%nat then ascii_of_nat (n + 32) else c.

Fixpoint lower (s : string) : string :=
  match s with
  | EmptyString => EmptyString
  | String c rest => String (lower_ascii c) (lower rest)
  end.

(** ** WorkspaceManager *)

(** A workspace canvas: the widgets its layout holds, in layout order,
    and its child widgets in stacking order (the last one is on top). *)
Record Canvas := mkCanvas {
  layout_items : list handle;
  children : list handle
}.

Definition empty_canvas : Canvas := mkCanvas [] [].

Record WorkspaceManager := mkWorkspaceManager {
  count : Z;
  workspaces : list Canvas;
  current : Z;
  (** [self.stack.currentIndex()]: the page on display; the stacked
      layout hides every other page *)
  stack_current : Z
}.

(** [WorkspaceManager.__init__]: [range(count)] canvases, each added to
    the stacked layout, whose current index is 0 once it has a page and
    -1 while it has none. *)
Definition WorkspaceManager_init (cnt : Z) : WorkspaceManager :=
  {| count := cnt;
     workspaces := replicate (Z.to_nat cnt) empty_canvas;
     current := 0;
     stack_current := if 0 <? cnt then 0 else -1 |}.

(** [index % self.count]: Python's remainder has the sign of the divisor,
    as [Z.modulo] has; a zero divisor raises. *)
Definition py_mod (a b : Z) : result Z :=
  if b =? 0 then Raise ZeroDivisionError else Ok (a mod b).

(** [list_windows]: for each canvas its index and the widgets of its layout. *)
Definition list_windows (self : WorkspaceManager) : list (nat * list handle) :=
  imap (fun i ws => (i, layout_items ws)) (workspaces self).

(** ** PyShellApp *)

(** The shell together with the widgets it owns.  [objects] holds the live
    [InternalWindow] widgets, [focus_widget] the widget with keyboard
    focus; the overlay fields are [None] until the attribute is set;
    [closing] lists the widgets that were closed and wait for the event
    loop to delete them. *)
Record PyShellApp := mkPyShellApp {
  objects : gmap handle InternalWindow;
  next_handle : handle;
  focus_widget : option handle;
  workspace_manager : WorkspaceManager;
  (** Focus/Z-order ring: [self.windows] *)
  windows : list handle;
  (** geometry of [self.panel], [self.dock], [self.notifications] *)
  panel : option QRect;
  dock : option QRect;
  notifications : option QRect;
  (** [self.notifications.notifications]: title and text of each entry *)
  notes : list (string * string);
  (** argument vectors of the programs started by [subprocess.Popen] *)
  spawned : list (list string);
  (** lines handed to the logger: level and message *)
  log : list (string * string);
  (** closed widgets whose deletion is pending ([deleteLater]) *)
  closing : list handle;
  toolkit : Toolkit
}.

Definition set_objects (o : gmap handle InternalWindow) (s : PyShellApp) : PyShellApp :=
  {| objects := o; next_handle := next_handle s; focus_widget := focus_widget s;
     workspace_manager := workspace_manager s; windows := windows s;
     panel := panel s; dock := dock s; notifications := notifications s;
     notes := notes s; spawned := spawned s; log := log s;
     closing := closing s; toolkit := toolkit s |}.

Definition set_focus_widget (f : option handle) (s : PyShellApp) : PyShellApp :=
  {| objects := objects s; next_handle := next_handle s; focus_widget := f;
     workspace_manager := workspace_manager s; windows := windows s;
     panel := panel s; dock := dock s; notifications := notifications s;
     notes := notes s; spawned := spawned s; log := log s;
     closing := closing s; toolkit := toolkit s |}.

Definition set_workspace_manager (wm : WorkspaceManager) (s : PyShellApp) : PyShellApp :=
  {| objects := objects s; next_handle := next_handle s; focus_widget := focus_widget s;
     workspace_manager := wm; windows := windows s;
     panel := panel s; dock := dock s; notifications := notifications s;
     notes := notes s; spawned := spawned s; log := log s;
     closing := closing s; toolkit := toolkit s |}.

Definition set_windows (l : list handle) (s : PyShellApp) : PyShellApp :=
  {| objects := objects s; next_handle := next_handle s; focus_widget := focus_widget s;
     workspace_manager := workspace_manager s; windows := l;
     panel := panel s; dock := dock s; notifications := notifications s;
     notes := notes s; spawned := spawned s; log := log s;
     closing := closing s; toolkit := toolkit s |}.

Definition set_overlays (p d n : option QRect) (s : PyShellApp) : PyShellApp :=
  {| objects := objects s; next_handle := next_handle s; focus_widget := focus_widget s;
     workspace_manager := workspace_manager s; windows := windows s;
     panel := p; dock := d; notifications := n;
     notes := notes s; spawned := spawned s; log := log s;
     closing := closing s; toolkit := toolkit s |}.

Definition set_notes (l : list (string * string)) (s : PyShellApp) : PyShellApp :=
  {| objects := objects s; next_handle := next_handle s; focus_widget := focus_widget s;
     workspace_manager := workspace_manager s; windows := windows s;
     panel := panel s; dock := dock s; notifications := notifications s;
     notes := l; spawned := spawned s; log := log s;
     closing := closing s; toolkit := toolkit s |}.

Definition set_spawned (l : list (list string)) (s : PyShellApp) : PyShellApp :=
  {| objects := objects s; next_handle := next_handle s; focus_widget := focus_widget s;
     workspace_manager := workspace_manager s; windows := windows s;
     panel := panel s; dock := dock s; notifications := notifications s;
     notes := notes s; spawned := l; log := log s;
     closing := closing s; toolkit := toolkit s |}.

Definition set_log (l : list (string * string)) (s : PyShellApp) : PyShellApp :=
  {| objects := objects s; next_handle := next_handle s; focus_widget := focus_widget s;
     workspace_manager := workspace_manager s; windows := windows s;
     panel := panel s; dock := dock s; notifications := notifications s;
     notes := notes s; spawned := spawned s; log := l;
     closing := closing s; toolkit := toolkit s |}.

Definition set_next_handle (h : handle) (s : PyShellApp) : PyShellApp :=
  {| objects := objects s; next_handle := h; focus_widget := focus_widget s;
     workspace_manager := workspace_manager s; windows := windows s;
     panel := panel s; dock := dock s; notifications := notifications s;
     notes := notes s; spawned := spawned s; log := log s;
     closing := closing s; toolkit := toolkit s |}.

Definition set_closing (l : list handle) (s : PyShellApp) : PyShellApp :=
  {| objects := objects s; next_handle := next_handle s; focus_widget := focus_widget s;
     workspace_manager := workspace_manager s; windows := windows s;
     panel := panel s; dock := dock s; notifications := notifications s;
     notes := notes s; spawned := spawned s; log := log s;
     closing := l; toolkit := toolkit s |}.

Definition set_toolkit (tk : Toolkit) (s : PyShellApp) : PyShellApp :=
  {| objects := objects s; next_handle := next_handle s; focus_widget := focus_widget s;
     workspace_manager := workspace_manager s; windows := windows s;
     panel := panel s; dock := dock s; notifications := notifications s;
     notes := notes s; spawned := spawned s; log := log s;
     closing := closing s; toolkit := tk |}.

Definition set_workspaces (l : list Canvas) (s : PyShellApp) : PyShellApp :=
  set_workspace_manager
    {| count := count (workspace_manager s); workspaces := l;
       current := current (workspace_manager s);
       stack_current := stack_current (workspace_manager s) |} s.

(** *** Widget tree operations *)

Definition without (h : handle) (l : list handle) : list handle :=
  filter (fun x => x <> h) l.

Definition remove_item (h : handle) (c : Canvas) : Canvas :=
  mkCanvas (without h (layout_items c)) (children c).

Definition add_item (h : handle) (c : Canvas) : Canvas :=
  mkCanvas (layout_items c ++ [h]) (children c).

Definition remove_child (h : handle) (c : Canvas) : Canvas :=
  mkCanvas (layout_items c) (without h (children c)).

(** A new or re-parented child goes on top of its siblings. *)
Definition add_child (h : handle) (c : Canvas) : Canvas :=
  mkCanvas (layout_items c) (without h (children c) ++ [h]).

(** A method called on a widget whose C++ object is gone raises
    [RuntimeError]. *)
Definition the_object (h : handle) (s : PyShellApp) : result InternalWindow :=
  match objects s !! h with
  | Some w => Ok w
  | None => Raise RuntimeError
  end.

(** [w.raise_()]: the widget goes to the top of its parent's stack. *)
Definition raise_ (h : handle) (s : PyShellApp) : result PyShellApp :=
  let! w := the_object h s in
  match parent w with
  | Some p => Ok (set_workspaces (alter (add_child h) p (workspaces (workspace_manager s))) s)
  | None => Ok s
  end.

(** [w.activateWindow()]: activates the top-level window holding [w],
    which is the shell itself. *)
Definition activateWindow (h : handle) (s : PyShellApp) : result PyShellApp :=
  let! w := the_object h s in Ok s.

(** [w.setFocus(reason)]: the widget receives keyboard input. *)
Definition setFocus (h : handle) (s : PyShellApp) : result PyShellApp :=
  let! w := the_object h s in Ok (set_focus_widget (Some h) s).

(** What a pass of the layout of canvas [n] makes of window [h]: a shown
    window held by the layout is given, through [setGeometry], the bounds
    the toolkit computes; hidden windows and windows of other layouts
    are left alone. *)
Definition placed (tk : Toolkit) (n : nat) (items : list handle)
    (objs : gmap handle InternalWindow) (h : handle) (w : InternalWindow)
  : InternalWindow :=
  if decide (h ∈ items) then
    if visible w then setGeometry (place tk n items objs h) w else w
  else w.

(** A pass of the layout of canvas [n].  The toolkit runs one inside
    [show] and, between two events, whenever the layout was invalidated
    ([addWidget], [setFixedSize], [hide], a deletion, a new display
    size). *)
Definition layout_pass (n : nat) (s : PyShellApp) : PyShellApp :=
  match workspaces (workspace_manager s) !! n with
  | Some c =>
      set_objects
        (map_imap (fun h w => Some (placed (toolkit s) n (layout_items c) (objects s) h w))
                  (objects s)) s
  | None => s
  end.

(** Canvas [n] is the page the stacked layout displays. *)
Definition on_display (n : nat) (s : PyShellApp) : bool :=
  Z.of_nat n =? stack_current (workspace_manager s).

(** [w.show()]: nothing happens to a widget that is shown already;
    otherwise it is marked shown and, when its canvas is on display, the
    layout of the canvas is activated at once. *)
Definition show (h : handle) (s : PyShellApp) : result PyShellApp :=
  let! w := the_object h s in
  if visible w then Ok s
  else
    let s1 := set_objects (<[h := set_visible true w]> (objects s)) s in
    match parent w with
    | Some p => if on_display p s then Ok (layout_pass p s1) else Ok s1
    | None => Ok s1
    end.

(** [w.hide()]: nothing happens to a widget that is hidden already;
    otherwise it is marked hidden and keyboard focus goes where the
    toolkit moves it. *)
Definition hide (h : handle) (s : PyShellApp) : result PyShellApp :=
  let! w := the_object h s in
  if visible w then
    Ok (set_focus_widget
          (unfocus (toolkit s) h (focus_widget s) (objects s))
          (set_objects (<[h := set_visible false w]> (objects s)) s))
  else Ok s.

(** [InternalWindow.focus_me]: the three calls raise only when the object
    is gone, before changing anything, so the [except] branch sees [s]. *)
Definition focus_me (h : handle) (s : PyShellApp) : PyShellApp :=
  match (let! s1 := raise_ h s in
         let! s2 := activateWindow h s1 in
         setFocus h s2) with
  | Ok s' => s'
  | Raise _ => s
  end.

(** [ws.layout().addWidget(window)] for the canvas at position [n]: the
    widget leaves the layout it was in, joins this one, and becomes a
    child of the canvas if it was not one already; a widget given a new
    parent is hidden until shown again.  The layout is invalidated: the
    bounds of its widgets are set by its next pass ([show] runs one). *)
Definition layout_addWidget (n : nat) (h : handle) (s : PyShellApp)
  : result PyShellApp :=
  let! w := the_object h s in
  let ws1 := alter (add_item h) n (remove_item h <$> workspaces (workspace_manager s)) in
  if decide (parent w = Some n) then Ok (set_workspaces ws1 s)
  else
    let ws2 := alter (add_child h) n (remove_child h <$> ws1) in
    Ok (set_objects (<[h := set_visible false (set_parent (Some n) w)]> (objects s))
          (set_workspaces ws2 s)).

(** [WorkspaceManager.add_window], with [self] the shell's manager. *)
Definition add_window (window : handle) (workspace : option Z) (s : PyShellApp)
  : result PyShellApp :=
  let self := workspace_manager s in
  let idx := match workspace with Some i => i | None => current self end in
  let! n := py_position (length (workspaces self)) idx in
  let! s1 := layout_addWidget n window s in
  let! s2 := show window s1 in
  Ok (focus_me window s2).

(** [self.stack.setCurrentIndex(i)] on the [QStackedLayout]: nothing
    happens when there is no page [i] or page [i] is on display already;
    otherwise the page on display is hidden, page [i] is shown in its
    place, and keyboard focus goes where the toolkit moves it.  The
    windows of both pages keep their own [visible] state. *)
Definition setCurrentIndex (i : Z) (s : PyShellApp) : PyShellApp :=
  let wm := workspace_manager s in
  if (0 <=? i) && (i <? Z.of_nat (length (workspaces wm)))
     && negb (i =? stack_current wm) then
    set_focus_widget
      (refocus (toolkit s) (stack_current wm) i (focus_widget s) (objects s))
      (set_workspace_manager
         {| count := count wm; workspaces := workspaces wm;
            current := current wm; stack_current := i |} s)
  else s.

(** [WorkspaceManager.switch_to], with [self] the shell's manager. *)
Definition switch_to (index : Z) (s : PyShellApp) : result PyShellApp :=
  let self := workspace_manager s in
  let! c := py_mod index (count self) in
  let s1 := set_workspace_manager
              {| count := count self; workspaces := workspaces self;
                 current := c; stack_current := stack_current self |} s in
  Ok (setCurrentIndex c s1).

(** Qt hands a pointer move, or a release, to the window's handler. *)
Definition deliver_mouseMove (h : handle) (ev : QMouseEvent) (s : PyShellApp)
  : result PyShellApp :=
  let! w := the_object h s in
  let! r := mouseMoveEvent ev w in
  Ok (set_objects (<[h := fst r]> (objects s)) s).

Definition deliver_mouseRelease (h : handle) (ev : QMouseEvent) (s : PyShellApp)
  : result PyShellApp :=
  let! w := the_object h s in
  Ok (set_objects (<[h := mouseReleaseEvent ev w]> (objects s)) s).

(** Qt hands a mouse press to the window's handler; the window has
    [Qt.ClickFocus], so the click also gives it keyboard focus. *)
Definition deliver_mousePress (h : handle) (ev : QMouseEvent) (s : PyShellApp)
  : PyShellApp :=
  match objects s !! h with
  | Some w =>
      set_focus_widget (Some h)
        (set_objects (<[h := fst (mousePressEvent ev w)]> (objects s)) s)
  | None => s
  end.

(** *** Overlays and notifications *)

(** [reposition_overlays]: [screen_sz] is
    [QApplication.primaryScreen().size()].  The fixed height of the panel
    and the fixed widths of the dock and of the notification area are the
    ones passed here, so [setGeometry] takes the rectangles as given. *)
Definition reposition_overlays (screen_sz : QSize) (self : PyShellApp) : PyShellApp :=
  match panel self, dock self, notifications self with
  | Some _, Some _, Some _ =>
      set_overlays
        (Some (mkRect 0 0 (sz_width screen_sz) PANEL_HEIGHT))
        (Some (mkRect 8 (PANEL_HEIGHT + 8) DOCK_WIDTH
                      (sz_height screen_sz - PANEL_HEIGHT - 16)))
        (Some (mkRect (sz_width screen_sz - 340) (PANEL_HEIGHT + 8) 320 400))
        self
  | _, _, _ => self
  end.

(** [NotificationCenter.push]: the entry joins a [deque(maxlen=60)]. *)
Definition push (ttl text : string) (s : PyShellApp) : PyShellApp :=
  set_notes (deque_append 60 (ttl, text) (notes s)) s.

(** [logger.error(...)] *)
Definition logger_error (msg : string) (s : PyShellApp) : PyShellApp :=
  set_log (log s ++ [("ERR"%string, msg)]) s.

(** [PyShellApp.__init__], once the overlays exist and have been placed.
    The toolkit attached here is [static_toolkit]; the one the shell
    really runs on is put in its place by [set_toolkit]. *)
Definition PyShellApp_init (screen_sz : QSize) : PyShellApp :=
  reposition_overlays screen_sz
    {| objects := ∅; next_handle := 0%nat; focus_widget := None;
       workspace_manager := WorkspaceManager_init WORKSPACE_COUNT;
       windows := [];
       panel := Some null_rect; dock := Some null_rect;
       notifications := Some null_rect;
       notes := []; spawned := []; log := [];
       closing := []; toolkit := static_toolkit |}.

(** *** Launching *)

(** [InternalWindow(title, content, parent=workspaces[current])]: the new
    widget is a child of the current canvas, on top of its siblings.  The
    content widget, and what it starts on its own (the terminal runs a
    shell in a [QProcess]), is opaque to the window core. *)
Definition new_window (ttl : string) (s : PyShellApp) : result (handle * PyShellApp) :=
  let wm := workspace_manager s in
  let! n := py_position (length (workspaces wm)) (current wm) in
  let h := next_handle s in
  let s1 := set_objects (<[h := InternalWindow_init ttl (Some n)]> (objects s)) s in
  let s2 := set_workspaces (alter (add_child h) n (workspaces wm)) s1 in
  Ok (h, set_next_handle (S h) s2).

(** The four internal kinds share one body: create the window, add it to
    the current workspace, append it to [self.windows], return it. *)
Definition launch_internal (ttl : string) (s : PyShellApp)
  : result (option handle * PyShellApp) :=
  let! hs := new_window ttl s in
  let! s2 := add_window (fst hs) None (snd hs) in
  Ok (Some (fst hs), set_windows (windows s2 ++ [fst hs]) s2).

Section Launch.

(** [subprocess.Popen(argv)]: whether the operating system starts the
    program, or the exception it raises. *)
Variable Popen : list string -> result unit.

Definition launch_app (name : string) (self : PyShellApp)
  : option handle * PyShellApp :=
  let name := lower name in
  let body :=
    if String.eqb name "terminal" then launch_internal "Terminal" self
    else if String.eqb name "editor" then launch_internal "Editor" self
    else if String.eqb name "browser" then launch_internal "Browser" self
    else if String.eqb name "files" then launch_internal "Files" self
    else
      let! started := Popen [name] in
      Ok (None, set_spawned (spawned self ++ [[name]]) self)
  in
  match body with
  | Ok r => r
  | Raise e =>
      (None, push "Launch failed" (exn_str e)
               (logger_error ("launch_app failed: " ++ exn_str e) self))
  end.

End Launch.

(** *** Ring maintenance and cycling *)

(** [list.remove(x)]: the first occurrence goes. *)
Fixpoint list_remove (x : handle) (l : list handle) : list handle :=
  match l with
  | [] => []
  | y :: rest => if decide (x = y) then rest else y :: list_remove x rest
  end.

Definition on_window_closed (win : handle) (self : PyShellApp) : PyShellApp :=
  if decide (win ∈ windows self) then set_windows (list_remove win (windows self)) self
  else self.

Definition cycle_windows (self : PyShellApp) : PyShellApp :=
  match windows self with
  | [] => self
  | w :: rest =>
      let self1 := set_windows (rest ++ [w]) self in
      match raise_ w self1 with
      | Ok self2 => focus_me w self2
      | Raise _ => self1
      end
  end.

Definition switch_workspace (delta : Z) (self : PyShellApp) : result PyShellApp :=
  let wm := workspace_manager self in
  let! idx := py_mod (current wm + delta) (count wm) in
  let! self1 := switch_to idx self in
  Ok (push "Workspace" ("Switched to " ++ pretty (idx + 1)) self1).

(** ** Further methods *)

(** *** Window life cycle seen from the shell *)

(** [self.close()] on a window with [Qt.WA_DeleteOnClose]: the widget is
    hidden and, the first time, its deletion is left to the event loop
    ([deleteLater]); until then the object lives on, in its layout. *)
Definition close_widget (h : handle) (s : PyShellApp) : result PyShellApp :=
  let! s1 := hide h s in
  if decide (h ∈ closing s1) then Ok s1
  else Ok (set_closing (closing s1 ++ [h]) s1).

(** Back in the event loop, the toolkit deletes a widget whose deletion
    was pending: the object goes, and with it its place in the layout
    and in the stacking order of its canvas. *)
Definition deferred_delete (h : handle) (s : PyShellApp) : PyShellApp :=
  if decide (h ∈ closing s) then
    set_closing (without h (closing s))
      (set_focus_widget
         (if decide (focus_widget s = Some h) then None else focus_widget s)
         (set_workspaces
            ((fun c => remove_child h (remove_item h c))
               <$> workspaces (workspace_manager s))
            (set_objects (delete h (objects s)) s)))
  else s.

(** [InternalWindow.on_close]: the [window_closed] signal, which
    [launch_app] connected to [on_window_closed], then [self.close()]. *)
Definition on_close (h : handle) (s : PyShellApp) : result PyShellApp :=
  let! w := the_object h s in
  close_widget h (on_window_closed h s).

(** A handler of one window replaces that window's record; the toolkit
    may move keyboard focus while it runs (hiding a focused widget). *)
Inductive window_step : InternalWindow -> InternalWindow -> Prop :=
  | step_press ev w : window_step w (fst (mousePressEvent ev w))
  | step_move ev w r : mouseMoveEvent ev w = Ok r -> window_step w (fst r)
  | step_release ev w : window_step w (mouseReleaseEvent ev w)
  | step_min w : window_step w (on_min w)
  | step_max pg w : window_step w (on_max pg w).

(** The layout pass that follows an event on window [h] which invalidated
    the layout of its canvas, when that canvas is on display. *)
Definition relayout_of (h : handle) (s : PyShellApp) : PyShellApp :=
  match objects s !! h with
  | Some w =>
      match parent w with
      | Some p => if on_display p s then layout_pass p s else s
      | None => s
      end
  | None => s
  end.

(** The pointer moves of a resize of window [h].  Each move comes with
    the number of passes of the canvas layout that the toolkit runs after
    it, before the next event; the [setFixedSize] of the move asks for
    one. *)
Fixpoint resize_moves_on (h : handle) (evs : list (QMouseEvent * nat))
    (s : PyShellApp) : result PyShellApp :=
  match evs with
  | [] => Ok s
  | (ev, k) :: rest =>
      let! s1 := deliver_mouseMove h ev s in
      resize_moves_on h rest (Nat.iter k (relayout_of h) s1)
  end.

(** A whole resize of window [h] seen from the shell: press, moves with
    their layout passes, release. *)
Definition resize_gesture_on (h : handle) (press : QMouseEvent)
    (moves : list (QMouseEvent * nat)) (release : QMouseEvent) (s : PyShellApp)
  : result PyShellApp :=
  let! s1 := resize_moves_on h moves (deliver_mousePress h press s) in
  deliver_mouseRelease h release s1.

(** A whole gesture on one window with nothing between its events, as
    in a drag: press, moves, release. *)
Definition gesture (press : QMouseEvent) (moves : list QMouseEvent)
    (release : QMouseEvent) (w : InternalWindow) : result InternalWindow :=
  let! w1 := pointer_moves moves (fst (mousePressEvent press w)) in
  Ok (mouseReleaseEvent release w1).

(** *** Autostart *)

(** [logger.warn(...)] *)
Definition logger_warn (msg : string) (s : PyShellApp) : PyShellApp :=
  set_log (log s ++ [("WARN"%string, msg)]) s.

Section Autostart.

(** [subprocess.Popen] as in [launch_app], and [str.split()], which cuts
    a command line at runs of white space. *)
Variable Popen : list string -> result unit.
Variable split : string -> list string.

(** [run_autostart] over the list [self.config.get("autostart", [])]. *)
Fixpoint run_autostart (cmds : list string) (self : PyShellApp) : PyShellApp :=
  match cmds with
  | [] => self
  | cmd :: rest =>
      let self1 :=
        match Popen (split cmd) with
        | Ok _ => set_spawned (spawned self ++ [split cmd]) self
        | Raise e =>
            logger_warn ("autostart failed: " ++ cmd ++ " " ++ exn_str e) self
        end in
      run_autostart rest self1
  end.

End Autostart.

(** *** ThemeManager *)

Module Theme.

Record ThemeManager := mkThemeManager {
  themes : gmap string (gmap string string);
  current : string
}.

Definition dark : gmap string string :=
  list_to_map [("panel_bg", "#212121"); ("panel_fg", "#ffffff");
               ("accent", "#00aaff"); ("dock_bg", "#111111");
               ("desktop_bg", "#0b1220")]%string.

Definition light : gmap string string :=
  list_to_map [("panel_bg", "#f7f7f7"); ("panel_fg", "#111111");
               ("accent", "#0077cc"); ("dock_bg", "#eeeeee");
               ("desktop_bg", "#dfe9f3")]%string.

(** [ThemeManager.__init__] *)
Definition init : ThemeManager :=
  {| themes := list_to_map [("dark"%string, dark); ("light"%string, light)];
     current := "dark" |}.

(** [get]: [self.themes[self.current]] raises [KeyError] when the current
    theme is unknown ([None] here); a missing key gives the default. *)
Definition get (key : string) (self : ThemeManager) : option string :=
  match themes self !! current self with
  | Some theme => Some (default "#000000"%string (theme !! key))
  | None => None
  end.

(** [set_theme]: the new manager, the boolean returned, and the line
    handed to the logger, if any. *)
Definition set_theme (name : string) (self : ThemeManager)
  : ThemeManager * bool * list (string * string) :=
  match themes self !! name with
  | Some _ =>
      ({| themes := themes self; current := name |}, true,
       [("INFO", "Theme set to " ++ name)]%string)
  | None => (self, false, [])
  end.

(** A sequence of [set_theme] calls. *)
Definition set_themes (names : list string) (self : ThemeManager) : ThemeManager :=
  foldl (fun tm name => fst (fst (set_theme name tm))) self names.

End Theme.

(** ** Shell invariant *)

(** The window list of each workspace, as [list_windows] reports them. *)
Definition layouts (s : PyShellApp) : list (list handle) :=
  layout_items <$> workspaces (workspace_manager s).

(** What holds of every shell the program can reach: the ring lists,
    each exactly once, the live windows that have not been closed;
    handles are never reused; the manager has its four canvases with a
    valid active index; every live window sits in the layout of exactly
    the canvas that is its parent; a closed window stays hidden until
    it is deleted; the overlays exist. *)
Record shell_inv (s : PyShellApp) : Prop := mk_shell_inv {
  inv_nodup : NoDup (windows s);
  inv_live : forall h,
      h ∈ windows s <-> is_Some (objects s !! h) /\ h ∉ closing s;
  inv_fresh : forall h, is_Some (objects s !! h) -> (h < next_handle s)%nat;
  inv_count : count (workspace_manager s) = WORKSPACE_COUNT;
  inv_length : length (workspaces (workspace_manager s)) = 4%nat;
  inv_current : 0 <= current (workspace_manager s) < WORKSPACE_COUNT;
  inv_parent : forall h w, objects s !! h = Some w ->
      exists p l, parent w = Some p /\ layouts s !! p = Some l /\ h ∈ l;
  inv_layout : forall i l h, layouts s !! i = Some l -> h ∈ l ->
      exists w, objects s !! h = Some w /\ parent w = Some i;
  inv_layout_nodup : forall i l, layouts s !! i = Some l -> NoDup l;
  inv_closing : forall h, h ∈ closing s ->
      exists w, objects s !! h = Some w /\ visible w = false;
  inv_overlays : is_Some (panel s) /\ is_Some (dock s) /\ is_Some (notifications s)
}.

Section Reachable.

Variable Popen : list string -> result unit.

(** The shells reached from start-up by the modelled operations, on any
    toolkit and through any changes of what the toolkit computes. *)
Inductive reachable : PyShellApp -> Prop :=
  | reach_init sz : reachable (PyShellApp_init sz)
  | reach_toolkit tk s : reachable s -> reachable (set_toolkit tk s)
  | reach_layout n s : reachable s -> reachable (layout_pass n s)
  | reach_delete h s : reachable s -> reachable (deferred_delete h s)
  | reach_launch name s : reachable s -> reachable (snd (launch_app Popen name s))
  | reach_cycle s : reachable s -> reachable (cycle_windows s)
  | reach_close h s s' : reachable s -> on_close h s = Ok s' -> reachable s'
  | reach_switch d s s' : reachable s -> switch_workspace d s = Ok s' -> reachable s'
  | reach_press h ev s : reachable s -> reachable (deliver_mousePress h ev s)
  | reach_overlays sz s : reachable s -> reachable (reposition_overlays sz s)
  | reach_window h w w' f s :
      reachable s -> objects s !! h = Some w -> window_step w w' ->
      reachable (set_focus_widget f (set_objects (<[h := w']> (objects s)) s)).

End Reachable.

(** ** Gesture and geometry predicates *)

(** The current size agrees with the size fixed by [setFixedSize], if any.
    Every window the program builds satisfies it (lemmas below). *)
Definition size_respects_fixed (w : InternalWindow) : Prop :=
  forall f, fixed_size w = Some f -> size (geometry w) = f.

(** [w] is in a drag gesture that started at pointer position [anchor]
    when its bounds were [init]. *)
Definition dragging_from (init : QRect) (anchor : QPoint) (w : InternalWindow) : Prop :=
  _dragging w = true /\
  _drag_offset w = Some (psub anchor (topLeft init)) /\
  size (geometry w) = size init.

(** [w] is in a resize gesture that started at pointer position [anchor]
    when its bounds were [init]. *)
Definition resizing_from (init : QRect) (anchor : QPoint) (w : InternalWindow) : Prop :=
  _dragging w = false /\
  _resizing w = true /\
  _resize_initial_geom w = Some init /\
  _resize_start w = Some anchor /\
  topLeft (geometry w) = topLeft init.

(** [w] is in a resize gesture that started at pointer position [anchor]
    when its bounds were [init]; where the window is by now is left
    open. *)
Definition resize_pending (init : QRect) (anchor : QPoint) (w : InternalWindow) : Prop :=
  _dragging w = false /\
  _resizing w = true /\
  _resize_initial_geom w = Some init /\
  _resize_start w = Some anchor.

(** [w] is in such a resize gesture and its last pointer move has fixed
    its size to [sz]. *)
Definition resized_to (init : QRect) (anchor : QPoint) (sz : QSize)
    (w : InternalWindow) : Prop :=
  resize_pending init anchor w /\ fixed_size w = Some sz /\ size (geometry w) = sz.

(** The windows the program can build: a fresh window, then any sequence
    of moves by the owner, mouse events and window controls. *)
Inductive built : InternalWindow -> Prop :=
  | built_init ttl par : built (InternalWindow_init ttl par)
  | built_move p w : built w -> built (move p w)
  | built_show b w : built w -> built (set_visible b w)
  | built_reparent p w : built w -> built (set_parent p w)
  | built_press ev w : built w -> built (fst (mousePressEvent ev w))
  | built_moveEvent ev w r :
      built w -> mouseMoveEvent ev w = Ok r -> built (fst r)
  | built_release ev w : built w -> built (mouseReleaseEvent ev w)
  | built_on_min w : built w -> built (on_min w)
  | built_on_max pg w : built w -> built (on_max pg w).

(** [w'] is [w] but for its bounds. *)
Definition rebounded (w w' : InternalWindow) : Prop :=
  exists g, w' = set_geometry_raw g w.

(** [o'] holds the windows of [o], each but for its bounds. *)
Definition relaid (o o' : gmap handle InternalWindow) : Prop :=
  forall h, option_Forall2 rebounded (o !! h) (o' !! h).

(** [o'] holds the windows of [o], each under the parent it had and
    still hidden if it was. *)
Definition same_tree (o o' : gmap handle InternalWindow) : Prop :=
  forall h,
    option_Forall2
      (fun w w' => parent w' = parent w /\ (visible w = false -> visible w' = false))
      (o !! h) (o' !! h).

(** One step of the ring rotation done by [cycle_windows]. *)
Definition rotate_front (l : list handle) : list handle :=
  match l with
  | [] => []
  | w :: rest => rest ++ [w]
  end.

(** ** Sample states *)

Module Samples.

(** A window at (100,100) of size 640x360, as in the scenarios. *)
Definition win : InternalWindow :=
  move (mkPoint 100 100) (InternalWindow_init "Terminal" (Some 0%nat)).

(** A left press at local position (x, y), pointer at [g] on screen. *)
Definition press (x y : Z) (g : QPoint) : QMouseEvent :=
  mkMouseEvent LeftButton x y g.

Definition move_to (g : QPoint) : QMouseEvent :=
  mkMouseEvent LeftButton 0 0 g.

Definition no_program : list string -> result unit :=
  fun _ => Raise (PopenError "No such file or directory").

(** The shell on a 1280x720 display, as it is after start-up. *)
Definition desktop : PyShellApp := PyShellApp_init (mkSize 1280 720).

(** Terminal, Editor and Browser opened in workspace 0, in this order. *)
Definition three_windows : PyShellApp :=
  snd (launch_app no_program "browser"
    (snd (launch_app no_program "editor"
      (snd (launch_app no_program "terminal" desktop))))).

(** A toolkit for canvases of 1280x672 that hold one window: inside the
    margins of 8 the window fills the canvas, or sits in its middle when
    its size is fixed.  Canvases holding several windows are left as
    they are. *)
Definition vbox : Toolkit :=
  {| place := fun n items objs h =>
       match items, objs !! h with
       | [_], Some w =>
           match fixed_size w with
           | Some f =>
               mkRect (8 + (1264 - sz_width f) / 2) (8 + (656 - sz_height f) / 2)
                      (sz_width f) (sz_height f)
           | None => mkRect 8 8 1264 656
           end
       | _, Some w => geometry w
       | _, None => null_rect
       end;
     refocus := fun old new f objs => None;
     unfocus := fun h f objs => if decide (f = Some h) then None else f |}.

(** The Editor alone in workspace 0, laid out by [vbox]. *)
Definition editor_alone : PyShellApp :=
  snd (launch_app no_program "editor" (set_toolkit vbox desktop)).

(** The Editor closed by [on_close], before the event loop deletes it. *)
Definition editor_closed : PyShellApp :=
  match on_close 0%nat editor_alone with
  | Ok s => s
  | Raise _ => editor_alone
  end.

End Samples.

(** * Theorems *)

(** ** Window geometry *)

Lemma size_respects_fixed_init ttl par :
  size_respects_fixed (InternalWindow_init ttl par).
Proof. intros f Hf. discriminate Hf. Qed.

Lemma size_respects_fixed_setGeometry r w :
  size_respects_fixed w -> size_respects_fixed (setGeometry r w).
Proof.
  intros Hw f. unfold setGeometry.
  destruct (fixed_size w) as [g|] eqn:Hg; cbn; rewrite Hg; intros Hf.
  - injection Hf as <-. destruct g; reflexivity.
  - discriminate Hf.
Qed.

Lemma size_respects_fixed_setFixedSize a b w :
  size_respects_fixed (setFixedSize a b w).
Proof. intros f Hf. cbn in Hf. injection Hf as <-. reflexivity. Qed.

Lemma size_respects_fixed_move p w :
  size_respects_fixed w -> size_respects_fixed (move p w).
Proof. intros Hw f Hf. cbn in *. apply Hw in Hf. exact Hf. Qed.

Lemma size_respects_fixed_press ev w :
  size_respects_fixed w -> size_respects_fixed (fst (mousePressEvent ev w)).
Proof.
  intros Hw. unfold mousePressEvent.
  destruct (is_left (button ev)); [|exact Hw].
  destruct (ev_y ev <=? titlebar_height); [exact Hw|].
  destruct (_ && _); exact Hw.
Qed.

Lemma size_respects_fixed_moveEvent ev w r :
  size_respects_fixed w -> mouseMoveEvent ev w = Ok r -> size_respects_fixed (fst r).
Proof.
  intros Hw. unfold mouseMoveEvent.
  destruct (_dragging w).
  - destruct (_drag_offset w); [|discriminate].
    intros [= <-]. now apply size_respects_fixed_move.
  - destruct (_resizing w), (_resize_initial_geom w); try (intros [= <-]; exact Hw).
    destruct (_resize_start w); [|discriminate].
    intros [= <-]. apply size_respects_fixed_setFixedSize.
Qed.

Lemma size_respects_fixed_on_max pg w :
  size_respects_fixed w -> size_respects_fixed (on_max pg w).
Proof.
  intros Hw f Hf. unfold on_max in *.
  destruct (negb (is_maximized w)); cbn in *;
    exact (size_respects_fixed_setGeometry _ w Hw f Hf).
Qed.

(** Every window the program builds keeps its size equal to the fixed
    size, if one was set. *)
Lemma built_size_respects_fixed w : built w -> size_respects_fixed w.
Proof.
  induction 1 as [ttl par|p w _ IH|b w _ IH|p w _ IH|ev w _ IH
                 |ev w r _ IH Hm|ev w _ IH|w _ IH|pg w _ IH].
  - apply size_respects_fixed_init.
  - now apply size_respects_fixed_move.
  - exact IH.
  - exact IH.
  - now apply size_respects_fixed_press.
  - now apply (size_respects_fixed_moveEvent ev w).
  - exact IH.
  - exact IH.
  - now apply size_respects_fixed_on_max.
Qed.

(** [setGeometry] with the window's own earlier geometry gives back that
    geometry when no size was fixed in between. *)
Lemma setGeometry_restores r w :
  size_respects_fixed w ->
  geometry (setGeometry (geometry w) (setGeometry r w)) = geometry w.
Proof.
  intros Hw. unfold setGeometry.
  destruct (fixed_size w) as [f|] eqn:Hf; cbn; rewrite Hf; cbn.
  - specialize (Hw f Hf). subst f. destruct (geometry w). reflexivity.
  - reflexivity.
Qed.

(** C5: toggling maximize twice on a window that is not maximized is a
    round trip.  The first call saves the current bounds in
    [prev_geometry] and sets [is_maximized]; the second call, with no
    resize in between, restores exactly those bounds and clears the
    flag. *)
Theorem on_max_round_trip (pg1 pg2 : QRect) (w : InternalWindow)
    (Hnot : is_maximized w = false) (Hsz : size_respects_fixed w) :
  prev_geometry (on_max pg1 w) = geometry w /\
  is_maximized (on_max pg1 w) = true /\
  geometry (on_max pg2 (on_max pg1 w)) = geometry w /\
  is_maximized (on_max pg2 (on_max pg1 w)) = false.
Proof.
  assert (H1 : on_max pg1 w =
    let self1 := setGeometry (mkRect 10 (PANEL_HEIGHT + 10) (rwidth pg1 - 20)
                                     (rheight pg1 - PANEL_HEIGHT - 20)) w in
    {| title := title self1; parent := parent self1;
       geometry := geometry self1; fixed_size := fixed_size self1;
       visible := visible self1; is_maximized := true; prev_geometry := geometry w;
       _dragging := _dragging self1; _drag_offset := _drag_offset self1;
       _resizing := _resizing self1; _resize_start := _resize_start self1;
       _resize_initial_geom := _resize_initial_geom self1 |}).
  { unfold on_max. rewrite Hnot. reflexivity. }
  rewrite H1. cbn zeta. split; [reflexivity|]. split; [reflexivity|].
  unfold on_max at 1 2. cbn [is_maximized negb prev_geometry].
  split; [|reflexivity].
  cbn [geometry].
  set (r := mkRect _ _ _ _).
  pose proof (setGeometry_restores r w Hsz) as Hr.
  unfold setGeometry in *.
  destruct (fixed_size w) as [f|] eqn:Hf; cbn in *; rewrite ?Hf in *; cbn in *; exact Hr.
Qed.

Lemma on_max_round_trip_witness :
  let w := Samples.win in
  let screen := mkRect 0 0 1280 720 in
  prev_geometry (on_max screen w) = mkRect 100 100 640 360 /\
  is_maximized (on_max screen w) = true /\
  geometry (on_max screen (on_max screen w)) = mkRect 100 100 640 360 /\
  is_maximized (on_max screen (on_max screen w)) = false.
Proof.
  apply (on_max_round_trip (mkRect 0 0 1280 720) (mkRect 0 0 1280 720) Samples.win).
  - reflexivity.
  - intros f Hf. discriminate Hf.
Defined.

(** The round trip also holds after a resize gesture has fixed the size:
    the first toggle then only moves the window. *)
Example on_max_after_resize :
  let w := setFixedSize 300 200 Samples.win in
  let screen := mkRect 0 0 1280 720 in
  geometry (on_max screen w) = mkRect 10 58 300 200 /\
  geometry (on_max screen (on_max screen w)) = mkRect 100 100 300 200.
Proof. split; reflexivity. Qed.

(** ** Drag and resize gestures *)

(** A left press in the title bar starts a drag from the current bounds. *)
Lemma press_titlebar_starts_drag ev w :
  is_left (button ev) = true -> ev_y ev <= titlebar_height ->
  mousePressEvent ev w =
    (fst (mousePressEvent ev w), true) /\
  dragging_from (geometry w) (globalPos ev) (fst (mousePressEvent ev w)).
Proof.
  intros Hl Hy. unfold mousePressEvent. rewrite Hl.
  destruct (Z.leb_spec (ev_y ev) titlebar_height) as [_|Hgt]; [|lia].
  cbn. split; [reflexivity|]. repeat split.
Qed.

(** A left press below the title bar, inside the 12x12 corner, starts a
    resize from the current bounds (when no drag is pending). *)
Lemma press_corner_starts_resize ev w :
  is_left (button ev) = true -> titlebar_height < ev_y ev ->
  width w - 12 <= ev_x ev -> height w - 12 <= ev_y ev ->
  _dragging w = false ->
  mousePressEvent ev w =
    (fst (mousePressEvent ev w), true) /\
  resizing_from (geometry w) (globalPos ev) (fst (mousePressEvent ev w)).
Proof.
  intros Hl Hy Hx Hh Hd. unfold mousePressEvent. rewrite Hl.
  destruct (Z.leb_spec (ev_y ev) titlebar_height) as [Hle|_]; [lia|].
  destruct (Z.leb_spec (width w - 12) (ev_x ev)) as [_|?]; [|lia].
  destruct (Z.leb_spec (height w - 12) (ev_y ev)) as [_|?]; [|lia].
  cbn. split; [reflexivity|]. repeat split. exact Hd.
Qed.

(** One pointer move of a drag: the handler accepts the event, the bounds
    are the initial ones shifted by the pointer delta, the gesture goes on. *)
Lemma drag_step init anchor ev w :
  dragging_from init anchor w ->
  exists w',
    mouseMoveEvent ev w = Ok (w', true) /\
    geometry w' =
      mkRect (rx init + (px (globalPos ev) - px anchor))
             (ry init + (py (globalPos ev) - py anchor))
             (rwidth init) (rheight init) /\
    dragging_from init anchor w'.
Proof.
  intros (Hd & Hoff & Hsz).
  unfold mouseMoveEvent. rewrite Hd, Hoff.
  eexists. split; [reflexivity|].
  unfold move, width, height. cbn.
  injection Hsz as Hw Hh. rewrite Hw, Hh.
  split.
  - f_equal; lia.
  - repeat split; assumption.
Qed.


(** A whole gesture: after any non-empty sequence of moves the bounds are
    determined by the last pointer position alone. *)
Lemma drag_moves init anchor evs ev w :
  dragging_from init anchor w ->
  exists w',
    pointer_moves (evs ++ [ev]) w = Ok w' /\
    geometry w' =
      mkRect (rx init + (px (globalPos ev) - px anchor))
             (ry init + (py (globalPos ev) - py anchor))
             (rwidth init) (rheight init).
Proof.
  revert w. induction evs as [|e evs IH]; intros w Hw.
  - destruct (drag_step init anchor ev w Hw) as (w' & Hm & Hg & _).
    exists w'. cbn. rewrite Hm. cbn. auto.
  - destruct (drag_step init anchor e w Hw) as (w1 & Hm & _ & Hw1).
    destruct (IH w1 Hw1) as (w' & Hp & Hg).
    exists w'. cbn. rewrite Hm. cbn. auto.
Qed.



(** C7: for a window in a drag gesture begun at bounds (x, y, w, h), every
    pointer move puts the origin at the initial origin plus the pointer
    delta from the anchor and keeps width and height; nothing clamps the
    result to the screen, and the window is still in the same gesture. *)
Theorem drag_gesture_bounds (x y wd ht dx dy : Z) (anchor : QPoint)
    (ev : QMouseEvent) (w : InternalWindow)
    (Hgest : dragging_from (mkRect x y wd ht) anchor w)
    (Hdelta : psub (globalPos ev) anchor = mkPoint dx dy) :
  exists w',
    mouseMoveEvent ev w = Ok (w', true) /\
    geometry w' = mkRect (x + dx) (y + dy) wd ht /\
    dragging_from (mkRect x y wd ht) anchor w'.
Proof.
  destruct (drag_step _ _ ev w Hgest) as (w' & Hm & Hg & Hw').
  injection Hdelta as Hdx Hdy. cbn in Hg. rewrite Hdx, Hdy in Hg.
  exists w'. auto.
Qed.

(** The scenario of C7: a window at (100,100,640,360) grabbed by its
    title bar and moved by (50,-30) ends at (150,70,640,360). *)
Lemma drag_gesture_bounds_witness :
  let w := fst (mousePressEvent (Samples.press 300 10 (mkPoint 400 110)) Samples.win) in
  let ev := Samples.move_to (mkPoint 450 80) in
  exists w',
    mouseMoveEvent ev w = Ok (w', true) /\
    geometry w' = mkRect 150 70 640 360 /\
    dragging_from (mkRect 100 100 640 360) (mkPoint 400 110) w'.
Proof.
  apply (drag_gesture_bounds 100 100 640 360 50 (-30) (mkPoint 400 110)).
  - repeat split; reflexivity.
  - reflexivity.
Defined.

(** ** Frame lemmas for the widget tree operations *)

Lemma the_object_Some h s w :
  objects s !! h = Some w -> the_object h s = Ok w.
Proof. intros H. unfold the_object. now rewrite H. Qed.

Lemma raise__frame h s s' :
  raise_ h s = Ok s' ->
  windows s' = windows s /\ objects s' = objects s /\
  focus_widget s' = focus_widget s.
Proof.
  unfold raise_, the_object.
  destruct (objects s !! h) as [w|]; cbn; [|discriminate].
  destruct (parent w); intros [= <-]; auto.
Qed.

Lemma focus_me_frame h s :
  windows (focus_me h s) = windows s /\ objects (focus_me h s) = objects s.
Proof.
  unfold focus_me.
  destruct (raise_ h s) as [s1|e] eqn:H1; cbn; [|auto].
  apply raise__frame in H1 as (Hw & Ho & _).
  unfold activateWindow, setFocus, the_object.
  destruct (objects s1 !! h) eqn:Hh; cbn; rewrite ?Hh; cbn; auto.
Qed.

Lemma focus_me_live h s w :
  objects s !! h = Some w ->
  exists s1, raise_ h s = Ok s1 /\ focus_me h s = set_focus_widget (Some h) s1.
Proof.
  intros Hw. unfold focus_me.
  destruct (raise_ h s) as [s1|e] eqn:H1.
  - exists s1. split; [reflexivity|].
    apply raise__frame in H1 as (_ & Ho & _).
    unfold activateWindow, setFocus, the_object. cbn.
    rewrite Ho, Hw. cbn. rewrite Ho, Hw. reflexivity.
  - unfold raise_ in H1. rewrite (the_object_Some _ _ _ Hw) in H1. cbn in H1.
    destruct (parent w); discriminate.
Qed.

Lemma cycle_windows_ring s :
  windows (cycle_windows s) = rotate_front (windows s).
Proof.
  unfold cycle_windows.
  destruct (windows s) as [|w rest] eqn:Hs; [exact Hs|].
  destruct (raise_ w (set_windows (rest ++ [w]) s)) as [s2|e] eqn:H2; [|reflexivity].
  apply raise__frame in H2 as (Hw & _).
  rewrite (proj1 (focus_me_frame w s2)), Hw. reflexivity.
Qed.

Lemma cycle_windows_empty s : windows s = [] -> cycle_windows s = s.
Proof. intros H. unfold cycle_windows. now rewrite H. Qed.

Lemma cycle_windows_iter n s :
  windows (Nat.iter n cycle_windows s) = Nat.iter n rotate_front (windows s).
Proof.
  induction n as [|n IH]; [reflexivity|].
  rewrite !Nat.iter_succ, cycle_windows_ring, IH. reflexivity.
Qed.

(** [k] rotations move the first [k] handles to the back. *)
Lemma rotate_front_iter (l : list handle) (k : nat) :
  (k <= length l)%nat -> Nat.iter k rotate_front l = drop k l ++ take k l.
Proof.
  induction k as [|k IH]; intros Hk.
  - cbn. rewrite drop_0, app_nil_r. reflexivity.
  - rewrite Nat.iter_succ, IH by lia.
    destruct (lookup_lt_is_Some_2 l k ltac:(lia)) as [x Hx].
    rewrite (drop_S _ _ _ Hx), (take_S_r _ _ _ Hx). cbn.
    rewrite <- app_assoc. reflexivity.
Qed.

Lemma rotate_front_full (l : list handle) :
  Nat.iter (length l) rotate_front l = l.
Proof.
  rewrite rotate_front_iter by lia.
  rewrite drop_all, take_ge by lia. reflexivity.
Qed.

(** ** Focus cycling *)

(** C8: [cycle_windows] on a shell whose ring is empty changes nothing;
    on any ring one call moves the front handle to the back and keeps
    the order of the others; and applying it as many times as the ring
    has handles brings the ring back to its original order, hence to its
    original front handle. *)
Theorem cycle_windows_cycle_law (s : PyShellApp) :
  cycle_windows (set_windows [] s) = set_windows [] s /\
  windows (cycle_windows s)
    = match windows s with
      | [] => []
      | w :: rest => rest ++ [w]
      end /\
  windows (Nat.iter (length (windows s)) cycle_windows s) = windows s /\
  head (windows (Nat.iter (length (windows s)) cycle_windows s)) = head (windows s).
Proof.
  assert (H : windows (Nat.iter (length (windows s)) cycle_windows s) = windows s).
  { rewrite cycle_windows_iter. apply rotate_front_full. }
  split; [reflexivity|].
  split; [apply cycle_windows_ring|].
  split; [exact H|]. now rewrite H.
Qed.

(** The scenario of C8: Terminal, Editor and Browser open in workspace 0;
    one call rotates the ring, three calls restore it. *)
Example cycle_three_windows :
  windows Samples.three_windows = [0; 1; 2]%nat /\
  windows (cycle_windows Samples.three_windows) = [1; 2; 0]%nat /\
  windows (cycle_windows (cycle_windows (cycle_windows Samples.three_windows)))
    = [0; 1; 2]%nat.
Proof. repeat split; vm_compute; reflexivity. Qed.

Lemma without_add_child h l :
  without h (without h l ++ [h]) = without h l.
Proof.
  unfold without. rewrite filter_app, list_filter_filter.
  rewrite (filter_cons_False _ h []) by (intros Hne; now apply Hne).
  rewrite filter_nil, app_nil_r.
  apply list_filter_iff. tauto.
Qed.

Lemma add_child_top h c :
  last (children (add_child h c)) = Some h /\
  layout_items (add_child h c) = layout_items c.
Proof. split; [cbn; apply last_snoc | reflexivity]. Qed.

Lemma add_child_idem h c : add_child h (add_child h c) = add_child h c.
Proof.
  unfold add_child. cbn [children layout_items].
  now rewrite without_add_child.
Qed.

(** What [cycle_windows] does to a non-empty ring whose front handle is a
    live window, as one equation. *)
Lemma cycle_windows_live s w rest obj p :
  windows s = w :: rest -> objects s !! w = Some obj -> parent obj = Some p ->
  cycle_windows s =
    set_focus_widget (Some w)
      (set_workspaces (alter (add_child w) p
                         (alter (add_child w) p (workspaces (workspace_manager s))))
         (set_windows (rest ++ [w]) s)).
Proof.
  intros Hs Ho Hp. unfold cycle_windows. rewrite Hs.
  unfold raise_ at 1, the_object. cbn. rewrite Ho. cbn. rewrite Hp.
  unfold focus_me, raise_, activateWindow, setFocus, the_object. cbn.
  rewrite Ho. cbn. rewrite Hp. cbn. rewrite Ho. cbn. rewrite Ho. reflexivity.
Qed.

(** C1 (as the code has it): for a non-empty ring [w :: rest] whose front
    handle [w] is a live window of canvas [p], [cycle_windows] removes [w]
    from the front, appends it to the back, and raises and focuses [w]
    itself, the handle now at the back of the ring: [w] is on top of its
    canvas and holds keyboard focus, and no window object is changed. *)
Theorem cycle_windows_focuses_rotated (s : PyShellApp) (w : handle)
    (rest : list handle) (obj : InternalWindow) (p : nat) (c : Canvas)
    (Hring : windows s = w :: rest)
    (Hlive : objects s !! w = Some obj)
    (Hparent : parent obj = Some p)
    (Hcanvas : workspaces (workspace_manager s) !! p = Some c) :
  windows (cycle_windows s) = rest ++ [w] /\
  last (windows (cycle_windows s)) = Some w /\
  focus_widget (cycle_windows s) = Some w /\
  workspaces (workspace_manager (cycle_windows s)) !! p = Some (add_child w c) /\
  last (children (add_child w c)) = Some w /\
  objects (cycle_windows s) = objects s.
Proof.
  rewrite (cycle_windows_live s w rest obj p Hring Hlive Hparent). cbn.
  split; [reflexivity|]. split; [apply last_snoc|]. split; [reflexivity|].
  split; [|split; [apply last_snoc|reflexivity]].
  rewrite !list_lookup_alter_eq, Hcanvas. cbn.
  now rewrite add_child_idem.
Qed.

Lemma cycle_windows_focuses_rotated_witness :
  let s := Samples.three_windows in
  let c := mkCanvas [0; 1; 2]%nat [0; 1; 2]%nat in
  windows (cycle_windows s) = [1; 2]%nat ++ [0%nat] /\
  last (windows (cycle_windows s)) = Some 0%nat /\
  focus_widget (cycle_windows s) = Some 0%nat /\
  workspaces (workspace_manager (cycle_windows s)) !! 0%nat = Some (add_child 0%nat c) /\
  last (children (add_child 0%nat c)) = Some 0%nat /\
  objects (cycle_windows s) = objects s.
Proof.
  apply (cycle_windows_focuses_rotated Samples.three_windows 0%nat [1; 2]%nat
           (set_visible true (InternalWindow_init "Terminal" (Some 0%nat))) 0%nat).
  - vm_compute. reflexivity.
  - vm_compute. reflexivity.
  - reflexivity.
  - vm_compute. reflexivity.
Defined.

(** C1 as stated fails: with Terminal, Editor and Browser in the ring,
    one [cycle_windows] leaves Editor (handle 1) at the front while the
    window raised and given focus is Terminal (handle 0), now at the
    back. *)
Lemma cycle_windows_front_not_focused :
  windows Samples.three_windows = [0; 1; 2]%nat /\
  head (windows (cycle_windows Samples.three_windows)) = Some 1%nat /\
  focus_widget (cycle_windows Samples.three_windows) = Some 0%nat /\
  head (windows (cycle_windows Samples.three_windows))
    <> focus_widget (cycle_windows Samples.three_windows).
Proof.
  repeat split; try (vm_compute; reflexivity).
  vm_compute. discriminate.
Qed.

(** ** Starting a gesture *)

Lemma deliver_mousePress_frame h ev s :
  windows (deliver_mousePress h ev s) = windows s /\
  workspace_manager (deliver_mousePress h ev s) = workspace_manager s.
Proof.
  unfold deliver_mousePress. destruct (objects s !! h); auto.
Qed.

Lemma deliver_mousePress_others h ev s h' :
  h' <> h -> objects (deliver_mousePress h ev s) !! h' = objects s !! h'.
Proof.
  intros Hne. unfold deliver_mousePress.
  destruct (objects s !! h); [|reflexivity].
  cbn. now apply lookup_insert_ne.
Qed.

(** C3 (as the code has it): a left press on a live window in its title
    bar, or else in its 12x12 bottom-right corner, is accepted by the
    window's handler and marks that window as dragging, respectively
    resizing, with its bounds untouched; no other window object is
    changed, and the Focus/Z-Order Ring and the stacking order of every
    workspace stay exactly as they were, so the window is not raised. *)
Theorem press_starts_gesture_without_raise (s : PyShellApp) (h : handle)
    (w : InternalWindow) (ev : QMouseEvent)
    (Hlive : objects s !! h = Some w)
    (Hleft : is_left (button ev) = true)
    (Hregion : ev_y ev <= titlebar_height \/
               (width w - 12 <= ev_x ev /\ height w - 12 <= ev_y ev)) :
  (exists w',
     mousePressEvent ev w = (w', true) /\
     objects (deliver_mousePress h ev s) !! h = Some w' /\
     (if ev_y ev <=? titlebar_height then _dragging w' = true
      else _resizing w' = true) /\
     geometry w' = geometry w) /\
  (forall h', h' <> h ->
     objects (deliver_mousePress h ev s) !! h' = objects s !! h') /\
  windows (deliver_mousePress h ev s) = windows s /\
  workspace_manager (deliver_mousePress h ev s) = workspace_manager s.
Proof.
  split; [|split; [intros h' Hne; now apply deliver_mousePress_others
                  |apply deliver_mousePress_frame]].
  unfold deliver_mousePress. rewrite Hlive. cbn [objects set_focus_widget set_objects].
  rewrite lookup_insert_eq.
  unfold mousePressEvent. rewrite Hleft.
  destruct (Z.leb_spec (ev_y ev) titlebar_height) as [Hy|Hy].
  - eexists. cbn. repeat split.
  - destruct Hregion as [?|[Hx Hh]]; [lia|].
    destruct (Z.leb_spec (width w - 12) (ev_x ev)); [|lia].
    destruct (Z.leb_spec (height w - 12) (ev_y ev)); [|lia].
    eexists. cbn. repeat split.
Qed.

Lemma press_starts_gesture_without_raise_witness :
  let s := Samples.three_windows in
  let ev := Samples.press 300 10 (mkPoint 300 68) in
  (exists w',
     mousePressEvent ev (set_visible true (InternalWindow_init "Editor" (Some 0%nat)))
       = (w', true) /\
     objects (deliver_mousePress 1%nat ev s) !! 1%nat = Some w' /\
     (if ev_y ev <=? titlebar_height then _dragging w' = true
      else _resizing w' = true) /\
     geometry w' = geometry (set_visible true (InternalWindow_init "Editor" (Some 0%nat)))) /\
  (forall h', h' <> 1%nat ->
     objects (deliver_mousePress 1%nat ev s) !! h' = objects s !! h') /\
  windows (deliver_mousePress 1%nat ev s) = windows s /\
  workspace_manager (deliver_mousePress 1%nat ev s) = workspace_manager s.
Proof.
  apply (press_starts_gesture_without_raise Samples.three_windows 1%nat).
  - vm_compute. reflexivity.
  - reflexivity.
  - left. vm_compute. discriminate.
Defined.

(** C3 as stated fails: with ring [0; 1; 2] and focus on Browser (2), a
    left press in the title bar of Editor (1) starts a drag of it and
    leaves Terminal (0) at the front of the ring and Browser on top of
    the stack of workspace 0. *)
Lemma press_does_not_raise :
  let s := Samples.three_windows in
  let sd := deliver_mousePress 1%nat (Samples.press 300 10 (mkPoint 300 68)) s in
  windows s = [0; 1; 2]%nat /\
  focus_widget s = Some 2%nat /\
  (_dragging <$> objects sd !! 1%nat) = Some true /\
  windows sd = [0; 1; 2]%nat /\ head (windows sd) <> Some 1%nat /\
  (children <$> workspaces (workspace_manager sd) !! 0%nat) = Some [0; 1; 2]%nat /\
  (last <$> (children <$> workspaces (workspace_manager sd) !! 0%nat))
    = Some (Some 2%nat).
Proof.
  cbv zeta.
  repeat split; try (vm_compute; reflexivity); vm_compute; discriminate.
Qed.

(** ** Workspace indices *)

Lemma py_position_out_of_range (len : nat) (i : Z) :
  i < - Z.of_nat len \/ Z.of_nat len <= i -> py_position len i = Raise IndexError.
Proof.
  intros Hi. unfold py_position.
  destruct (Z.leb_spec 0 i), (Z.ltb_spec i (Z.of_nat len)),
    (Z.leb_spec (- Z.of_nat len) i), (Z.ltb_spec i 0); cbn; try reflexivity; lia.
Qed.

Lemma py_position_in_range (len : nat) (i : Z) :
  0 <= i < Z.of_nat len -> py_position len i = Ok (Z.to_nat i).
Proof.
  intros Hi. unfold py_position.
  destruct (Z.leb_spec 0 i), (Z.ltb_spec i (Z.of_nat len)); cbn; try reflexivity; lia.
Qed.

(** A negative index that Python accepts addresses a canvas from the end. *)
Lemma py_position_negative (len : nat) (i : Z) :
  - Z.of_nat len <= i < 0 -> py_position len i = Ok (Z.to_nat (Z.of_nat len + i)).
Proof.
  intros Hi. unfold py_position.
  destruct (Z.leb_spec 0 i), (Z.ltb_spec i (Z.of_nat len)),
    (Z.leb_spec (- Z.of_nat len) i), (Z.ltb_spec i 0); cbn; try reflexivity; lia.
Qed.

(** [switch_to] with N > 0 workspaces, as one equation: the keyboard
    focus [f] afterwards is the toolkit's choice, and is the old one when
    the page asked for is on display already. *)
Lemma switch_to_ok (i : Z) (s : PyShellApp) :
  0 < count (workspace_manager s) ->
  count (workspace_manager s) = Z.of_nat (length (workspaces (workspace_manager s))) ->
  exists f,
    switch_to i s =
      Ok (set_focus_widget f
            (set_workspace_manager
               {| count := count (workspace_manager s);
                  workspaces := workspaces (workspace_manager s);
                  current := i mod count (workspace_manager s);
                  stack_current := i mod count (workspace_manager s) |} s)) /\
    (stack_current (workspace_manager s) = i mod count (workspace_manager s) ->
     f = focus_widget s).
Proof.
  intros Hpos Hlen. unfold switch_to, py_mod.
  destruct (Z.eqb_spec (count (workspace_manager s)) 0) as [?|_]; [lia|].
  cbn [rbind]. unfold setCurrentIndex.
  cbn [workspace_manager set_workspace_manager workspaces stack_current count current
       toolkit focus_widget objects].
  pose proof (Z.mod_pos_bound i (count (workspace_manager s)) Hpos) as [Hlo Hhi].
  rewrite <- Hlen.
  destruct (Z.leb_spec 0 (i mod count (workspace_manager s))); [|lia].
  destruct (Z.ltb_spec (i mod count (workspace_manager s)) (count (workspace_manager s)));
    [|lia].
  cbn [andb].
  destruct (Z.eqb_spec (i mod count (workspace_manager s))
                       (stack_current (workspace_manager s))) as [Heq|Hne]; cbn [negb].
  - exists (focus_widget s). split; [|reflexivity].
    rewrite <- Heq. reflexivity.
  - eexists. split; [reflexivity|]. intros Heq. congruence.
Qed.

(** C4: on a manager with N > 0 workspaces, [switch_to i] succeeds for
    every integer [i], sets the active index (and the visible page of the
    stack) to [i mod N], and leaves the window objects with their
    bounds, the canvases with their layout and stacking order, and the
    Focus/Z-Order Ring as they were.  (Keyboard focus, of which the claim
    says nothing, is the toolkit's to move when the page changes.) *)
Theorem switch_to_wraps_and_frames (i : Z) (s : PyShellApp)
    (Hpos : 0 < count (workspace_manager s))
    (Hlen : count (workspace_manager s)
            = Z.of_nat (length (workspaces (workspace_manager s)))) :
  exists s',
    switch_to i s = Ok s' /\
    current (workspace_manager s') = i mod count (workspace_manager s) /\
    stack_current (workspace_manager s') = i mod count (workspace_manager s) /\
    0 <= current (workspace_manager s') < count (workspace_manager s) /\
    count (workspace_manager s') = count (workspace_manager s) /\
    workspaces (workspace_manager s') = workspaces (workspace_manager s) /\
    objects s' = objects s /\
    windows s' = windows s.
Proof.
  destruct (switch_to_ok i s Hpos Hlen) as (f & Hs & _).
  rewrite Hs. eexists. split; [reflexivity|]. cbn.
  pose proof (Z.mod_pos_bound i _ Hpos).
  repeat split; lia.
Qed.

(** The scenario of C4: [switch_to 7] with four workspaces gives index 3. *)
Lemma switch_to_wraps_and_frames_witness :
  exists s',
    switch_to 7 Samples.three_windows = Ok s' /\
    current (workspace_manager s') = 7 mod count (workspace_manager Samples.three_windows) /\
    stack_current (workspace_manager s') = 7 mod count (workspace_manager Samples.three_windows) /\
    0 <= current (workspace_manager s') < count (workspace_manager Samples.three_windows) /\
    count (workspace_manager s') = count (workspace_manager Samples.three_windows) /\
    workspaces (workspace_manager s') = workspaces (workspace_manager Samples.three_windows) /\
    objects s' = objects Samples.three_windows /\
    windows s' = windows Samples.three_windows.
Proof.
  apply (switch_to_wraps_and_frames 7 Samples.three_windows).
  - vm_compute. reflexivity.
  - vm_compute. reflexivity.
Defined.

Example switch_to_7_of_4 :
  (current ∘ workspace_manager)
    <$> (match switch_to 7 Samples.desktop with
         | Ok s' => Some s' | Raise _ => None end) = Some 3.
Proof. reflexivity. Qed.

(** Where the toolkit takes keyboard focus off the outgoing page, the
    switch moves focus although the code never asks for it. *)
Example switch_to_moves_focus :
  let s := snd (launch_app Samples.no_program "terminal" Samples.editor_alone) in
  focus_widget s = Some 1%nat /\
  (focus_widget <$> (match switch_to 1 s with
                     | Ok s' => Some s' | Raise _ => None end)) = Some None.
Proof. split; vm_compute; reflexivity. Qed.

(** C2 (as the code has it): with N > 0 workspaces and an index i >= N or
    i < -N, [add_window] with that target index raises [IndexError] and so
    adds the window to no workspace, whereas [switch_to i] does not fail:
    it sets the active index to [i mod N], which changes the active
    index whenever [i mod N] is not the active index already. *)
Theorem out_of_range_index (window : handle) (i : Z) (s : PyShellApp)
    (Hpos : 0 < count (workspace_manager s))
    (Hlen : count (workspace_manager s)
            = Z.of_nat (length (workspaces (workspace_manager s))))
    (Hout : i < - count (workspace_manager s) \/ count (workspace_manager s) <= i) :
  add_window window (Some i) s = Raise IndexError /\
  exists s',
    switch_to i s = Ok s' /\
    current (workspace_manager s') = i mod count (workspace_manager s) /\
    (i mod count (workspace_manager s) <> current (workspace_manager s) ->
     current (workspace_manager s') <> current (workspace_manager s)).
Proof.
  split.
  - unfold add_window. rewrite py_position_out_of_range by lia. reflexivity.
  - destruct (switch_to_ok i s Hpos Hlen) as (f & Hs & _).
    rewrite Hs. eexists. split; [reflexivity|]. cbn.
    split; [reflexivity|]. intros Hne. exact Hne.
Qed.

Lemma out_of_range_index_witness :
  add_window 1%nat (Some 7) Samples.three_windows = Raise IndexError /\
  exists s',
    switch_to 7 Samples.three_windows = Ok s' /\
    current (workspace_manager s') = 7 mod count (workspace_manager Samples.three_windows) /\
    (7 mod count (workspace_manager Samples.three_windows)
       <> current (workspace_manager Samples.three_windows) ->
     current (workspace_manager s') <> current (workspace_manager Samples.three_windows)).
Proof.
  apply (out_of_range_index 1%nat 7 Samples.three_windows).
  - vm_compute. reflexivity.
  - vm_compute. reflexivity.
  - right. vm_compute. discriminate.
Defined.

(** C2 as stated fails: on the four-workspace shell, whose active index is
    0, [switch_to 7] succeeds and moves the active index to 3 although 7
    is outside [0, 4); and [add_window] with target index -1 succeeds too,
    putting the window into the last workspace. *)
Lemma out_of_range_switch_mutates :
  current (workspace_manager Samples.three_windows) = 0 /\
  count (workspace_manager Samples.three_windows) = 4 /\
  ((current ∘ workspace_manager)
     <$> (match switch_to 7 Samples.three_windows with
          | Ok s' => Some s' | Raise _ => None end)) = Some 3 /\
  (match add_window 1%nat (Some (-1)) Samples.three_windows with
   | Ok s' => layout_items <$> workspaces (workspace_manager s')
   | Raise _ => []
   end) = [[0; 2]; []; []; [1]]%nat.
Proof. repeat split; vm_compute; reflexivity. Qed.

(** ** Overlay layout *)

(** C9: once the three overlays exist, [reposition_overlays] makes their
    rectangles a function of the display size and the constants alone
    (panel height 48, dock width 64, margin 8): the panel spans the
    display width at the top with height 48, the dock has width 64 and
    height [display height - 48 - 2*8], and no window, canvas or ring
    entry is changed. *)
Theorem reposition_overlays_layout (screen_sz : QSize) (s : PyShellApp)
    (p d n : QRect)
    (Hp : panel s = Some p) (Hd : dock s = Some d) (Hn : notifications s = Some n) :
  PANEL_HEIGHT = 48 /\ DOCK_WIDTH = 64 /\
  panel (reposition_overlays screen_sz s)
    = Some (mkRect 0 0 (sz_width screen_sz) PANEL_HEIGHT) /\
  dock (reposition_overlays screen_sz s)
    = Some (mkRect 8 (PANEL_HEIGHT + 8) DOCK_WIDTH
                   (sz_height screen_sz - PANEL_HEIGHT - 2 * 8)) /\
  notifications (reposition_overlays screen_sz s)
    = Some (mkRect (sz_width screen_sz - 340) (PANEL_HEIGHT + 8) 320 400) /\
  objects (reposition_overlays screen_sz s) = objects s /\
  workspace_manager (reposition_overlays screen_sz s) = workspace_manager s /\
  windows (reposition_overlays screen_sz s) = windows s.
Proof.
  unfold reposition_overlays. rewrite Hp, Hd, Hn. cbn.
  repeat split.
Qed.

(** The scenario of C9: the display shrinks from 1920x1080 to 1280x720 and
    the dock height becomes 720 - 48 - 16 = 656. *)
Lemma reposition_overlays_layout_witness :
  let s := snd (launch_app Samples.no_program "editor"
                  (PyShellApp_init (mkSize 1920 1080))) in
  PANEL_HEIGHT = 48 /\ DOCK_WIDTH = 64 /\
  panel (reposition_overlays (mkSize 1280 720) s) = Some (mkRect 0 0 1280 PANEL_HEIGHT) /\
  dock (reposition_overlays (mkSize 1280 720) s)
    = Some (mkRect 8 (PANEL_HEIGHT + 8) DOCK_WIDTH (720 - PANEL_HEIGHT - 2 * 8)) /\
  notifications (reposition_overlays (mkSize 1280 720) s)
    = Some (mkRect (1280 - 340) (PANEL_HEIGHT + 8) 320 400) /\
  objects (reposition_overlays (mkSize 1280 720) s) = objects s /\
  workspace_manager (reposition_overlays (mkSize 1280 720) s) = workspace_manager s /\
  windows (reposition_overlays (mkSize 1280 720) s) = windows s.
Proof.
  apply (reposition_overlays_layout (mkSize 1280 720) _
           (mkRect 0 0 1920 48) (mkRect 8 56 64 1016) (mkRect 1580 56 320 400));
    vm_compute; reflexivity.
Defined.

Example dock_height_720 :
  rheight <$> dock (reposition_overlays (mkSize 1280 720)
                      (PyShellApp_init (mkSize 1920 1080))) = Some 656.
Proof. reflexivity. Qed.

(** ** Launching an unknown kind *)

(** C10: for a name whose lower-case form is none of "terminal",
    "editor", "browser" and "files", [launch_app] returns [None], creates
    no window object and leaves the Focus/Z-Order Ring and the workspace
    manager (hence every canvas) as they were.  It asks the operating
    system to start the program named by the lower-cased kind: when that
    succeeds the program is recorded as started and no notification is
    pushed; when it raises, nothing is started and a "Launch failed"
    notification carrying the exception text is pushed. *)
Theorem launch_app_unknown_kind (Popen : list string -> result unit)
    (name : string) (s : PyShellApp)
    (Hterminal : lower name <> "terminal"%string)
    (Heditor : lower name <> "editor"%string)
    (Hbrowser : lower name <> "browser"%string)
    (Hfiles : lower name <> "files"%string) :
  fst (launch_app Popen name s) = None /\
  objects (snd (launch_app Popen name s)) = objects s /\
  next_handle (snd (launch_app Popen name s)) = next_handle s /\
  windows (snd (launch_app Popen name s)) = windows s /\
  workspace_manager (snd (launch_app Popen name s)) = workspace_manager s /\
  match Popen [lower name] with
  | Ok _ =>
      spawned (snd (launch_app Popen name s)) = spawned s ++ [[lower name]] /\
      notes (snd (launch_app Popen name s)) = notes s
  | Raise e =>
      spawned (snd (launch_app Popen name s)) = spawned s /\
      notes (snd (launch_app Popen name s))
        = deque_append 60 ("Launch failed"%string, exn_str e) (notes s)
  end.
Proof.
  unfold launch_app.
  apply String.eqb_neq in Hterminal, Heditor, Hbrowser, Hfiles.
  rewrite Hterminal, Heditor, Hbrowser, Hfiles.
  destruct (Popen [lower name]) as [u|e]; cbn; repeat split.
Qed.

Lemma launch_app_unknown_kind_witness :
  let s := Samples.three_windows in
  let r := launch_app Samples.no_program "XTerm" s in
  fst r = None /\
  objects (snd r) = objects s /\
  next_handle (snd r) = next_handle s /\
  windows (snd r) = windows s /\
  workspace_manager (snd r) = workspace_manager s /\
  match Samples.no_program [lower "XTerm"] with
  | Ok _ =>
      spawned (snd r) = spawned s ++ [[lower "XTerm"]] /\ notes (snd r) = notes s
  | Raise e =>
      spawned (snd r) = spawned s /\
      notes (snd r) = deque_append 60 ("Launch failed"%string, exn_str e) (notes s)
  end.
Proof.
  apply (launch_app_unknown_kind Samples.no_program "XTerm" Samples.three_windows);
    vm_compute; discriminate.
Defined.

Example launch_unknown_failure :
  let r := launch_app Samples.no_program "XTerm" Samples.desktop in
  fst r = None /\
  notes (snd r) = [("Launch failed", "No such file or directory")]%string /\
  windows (snd r) = [].
Proof. repeat split. Qed.

Example launch_unknown_success :
  let r := launch_app (fun _ => Ok tt) "XTerm" Samples.desktop in
  fst r = None /\ spawned (snd r) = [["xterm"]]%string /\ notes (snd r) = [].
Proof. repeat split. Qed.

(** * Further properties *)

(** ** Gestures from press to release *)

Lemma pointer_moves_nil_or_last (evs : list QMouseEvent) :
  evs = [] \/ exists evs' ev, evs = evs' ++ [ev].
Proof.
  destruct evs as [|e evs] using rev_ind; [left; reflexivity|].
  right. eauto.
Qed.

(** X1: A pointer-up ends whatever gesture was in progress: the next pointer
    move is not handled by the window and leaves it as it is. *)
Theorem release_ends_gesture (rel ev : QMouseEvent) (w : InternalWindow) :
  _dragging (mouseReleaseEvent rel w) = false /\
  _resizing (mouseReleaseEvent rel w) = false /\
  geometry (mouseReleaseEvent rel w) = geometry w /\
  mouseMoveEvent ev (mouseReleaseEvent rel w) = Ok (mouseReleaseEvent rel w, false).
Proof.
  repeat split.
Qed.

(** X2: A press with another button, or a left press below the title bar and
    outside the bottom-right corner, starts nothing: the window is
    unchanged and the event goes to the default handler. *)
Theorem press_elsewhere_ignored (ev : QMouseEvent) (w : InternalWindow)
    (Hwhere : is_left (button ev) = false \/
              (titlebar_height < ev_y ev /\
               (ev_x ev < width w - 12 \/ ev_y ev < height w - 12))) :
  mousePressEvent ev w = (w, false).
Proof.
  unfold mousePressEvent.
  destruct (is_left (button ev)); [|reflexivity].
  destruct Hwhere as [?|[Hy Hc]]; [discriminate|].
  destruct (Z.leb_spec (ev_y ev) titlebar_height); [lia|].
  destruct (Z.leb_spec (width w - 12) (ev_x ev)),
           (Z.leb_spec (height w - 12) (ev_y ev)); cbn; try reflexivity; lia.
Qed.

Lemma press_elsewhere_ignored_witness :
  mousePressEvent (Samples.press 300 200 (mkPoint 400 300)) Samples.win
    = (Samples.win, false).
Proof.
  apply press_elsewhere_ignored.
  right. split; [reflexivity|]. left. reflexivity.
Defined.

(** X3: A drag from press to release: a left press in the title bar, any
    moves, then a release.  With no move the bounds are unchanged;
    otherwise the origin is shifted by the last pointer position minus
    the press position, the size is kept, and the window is idle again. *)
Theorem drag_gesture_end_to_end (press rel : QMouseEvent)
    (moves : list QMouseEvent) (w : InternalWindow)
    (Hleft : is_left (button press) = true)
    (Hbar : ev_y press <= titlebar_height) :
  exists w',
    gesture press moves rel w = Ok w' /\
    _dragging w' = false /\ _resizing w' = false /\
    geometry w' =
      match last moves with
      | None => geometry w
      | Some ev =>
          mkRect (rx (geometry w) + (px (globalPos ev) - px (globalPos press)))
                 (ry (geometry w) + (py (globalPos ev) - py (globalPos press)))
                 (rwidth (geometry w)) (rheight (geometry w))
      end.
Proof.
  destruct (press_titlebar_starts_drag press w Hleft Hbar) as [_ Hd].
  unfold gesture.
  destruct (pointer_moves_nil_or_last moves) as [->|(evs & ev & ->)].
  - cbn. eexists. split; [reflexivity|]. repeat split.
    unfold mousePressEvent. rewrite Hleft.
    destruct (Z.leb_spec (ev_y press) titlebar_height); [reflexivity|lia].
  - destruct (drag_moves _ _ evs ev _ Hd) as (w1 & Hm & Hg).
    rewrite Hm. cbn. eexists. split; [reflexivity|].
    rewrite last_snoc. cbn. repeat split. exact Hg.
Qed.

Lemma drag_gesture_end_to_end_witness :
  exists w',
    gesture (Samples.press 300 10 (mkPoint 400 110))
            [Samples.move_to (mkPoint 420 100); Samples.move_to (mkPoint 450 80)]
            (Samples.move_to (mkPoint 450 80)) Samples.win = Ok w' /\
    _dragging w' = false /\ _resizing w' = false /\
    geometry w' =
      match last [Samples.move_to (mkPoint 420 100); Samples.move_to (mkPoint 450 80)] with
      | None => geometry Samples.win
      | Some ev =>
          mkRect (rx (geometry Samples.win) + (px (globalPos ev) - px (mkPoint 400 110)))
                 (ry (geometry Samples.win) + (py (globalPos ev) - py (mkPoint 400 110)))
                 (rwidth (geometry Samples.win)) (rheight (geometry Samples.win))
      end.
Proof.
  apply (drag_gesture_end_to_end (Samples.press 300 10 (mkPoint 400 110))).
  - reflexivity.
  - vm_compute. discriminate.
Defined.

(** ** Layout passes and the resize gesture *)

Lemma set_geometry_raw_self w : set_geometry_raw (geometry w) w = w.
Proof. destruct w; reflexivity. Qed.

Lemma rebounded_refl w : rebounded w w.
Proof. exists (geometry w). symmetry. apply set_geometry_raw_self. Qed.

Lemma setGeometry_rebounded r w : rebounded w (setGeometry r w).
Proof. unfold setGeometry. destruct (fixed_size w); eexists; reflexivity. Qed.

Lemma placed_rebounded tk n items objs h w :
  rebounded w (placed tk n items objs h w).
Proof.
  unfold placed. destruct (decide (h ∈ items)); [|apply rebounded_refl].
  destruct (visible w); [apply setGeometry_rebounded|apply rebounded_refl].
Qed.

Lemma placed_outside tk n items objs h w :
  h ∉ items \/ visible w = false -> placed tk n items objs h w = w.
Proof.
  intros H. unfold placed. destruct (decide (h ∈ items)) as [Hin|]; [|reflexivity].
  destruct H as [H|H]; [contradiction|]. now rewrite H.
Qed.

Lemma set_objects_self s : set_objects (objects s) s = s.
Proof. destruct s; reflexivity. Qed.

Lemma relaid_refl o : relaid o o.
Proof.
  intros h. destruct (o !! h); constructor. apply rebounded_refl.
Qed.

(** A layout pass only replaces the window objects, each by itself with
    the bounds the layout gives it. *)
Lemma layout_pass_shape n s :
  exists objs',
    layout_pass n s = set_objects objs' s /\
    relaid (objects s) objs' /\
    forall h, objs' !! h =
      match workspaces (workspace_manager s) !! n with
      | Some c => placed (toolkit s) n (layout_items c) (objects s) h <$> objects s !! h
      | None => objects s !! h
      end.
Proof.
  unfold layout_pass.
  destruct (workspaces (workspace_manager s) !! n) as [c|].
  - eexists. split; [reflexivity|].
    assert (Hl : forall h,
      map_imap (fun h w => Some (placed (toolkit s) n (layout_items c) (objects s) h w))
        (objects s) !! h
      = placed (toolkit s) n (layout_items c) (objects s) h <$> objects s !! h).
    { intros h. rewrite map_lookup_imap. destruct (objects s !! h); reflexivity. }
    split; [|exact Hl].
    intros h. rewrite Hl. destruct (objects s !! h); constructor.
    apply placed_rebounded.
  - exists (objects s). split; [now rewrite set_objects_self|].
    split; [apply relaid_refl|reflexivity].
Qed.

Lemma placed_resized tk n items objs h init anchor sz w :
  resized_to init anchor sz w ->
  resized_to init anchor sz (placed tk n items objs h w).
Proof.
  intros (Hp & Hf & Hs). unfold placed.
  destruct (decide (h ∈ items)); [|exact (conj Hp (conj Hf Hs))].
  destruct (visible w); [|exact (conj Hp (conj Hf Hs))].
  unfold setGeometry. rewrite Hf.
  split; [exact Hp|]. split; [exact Hf|]. destruct sz. reflexivity.
Qed.

Lemma relayout_of_resized h s w init anchor sz :
  objects s !! h = Some w -> resized_to init anchor sz w ->
  exists w',
    objects (relayout_of h s) !! h = Some w' /\ resized_to init anchor sz w' /\
    windows (relayout_of h s) = windows s /\
    workspace_manager (relayout_of h s) = workspace_manager s.
Proof.
  intros Hw Hr. unfold relayout_of. rewrite Hw.
  assert (Hid : exists w', objects s !! h = Some w' /\ resized_to init anchor sz w' /\
                  windows s = windows s /\ workspace_manager s = workspace_manager s).
  { exists w. auto. }
  destruct (parent w) as [p|]; [|exact Hid].
  destruct (on_display p s); [|exact Hid].
  destruct (layout_pass_shape p s) as (objs' & -> & _ & Hl).
  cbn [objects set_objects windows workspace_manager]. rewrite Hl, Hw.
  destruct (workspaces (workspace_manager s) !! p) as [c|]; cbn.
  - eexists. split; [reflexivity|]. split; [|split; reflexivity].
    now apply placed_resized.
  - exists w. auto.
Qed.

Lemma relayout_of_iter_resized k h s w init anchor sz :
  objects s !! h = Some w -> resized_to init anchor sz w ->
  exists w',
    objects (Nat.iter k (relayout_of h) s) !! h = Some w' /\
    resized_to init anchor sz w' /\
    windows (Nat.iter k (relayout_of h) s) = windows s /\
    workspace_manager (Nat.iter k (relayout_of h) s) = workspace_manager s.
Proof.
  intros Hw Hr. induction k as [|k (w1 & Hw1 & Hr1 & Hwin & Hwm)].
  - exists w. auto.
  - rewrite Nat.iter_succ.
    destruct (relayout_of_resized h _ w1 init anchor sz Hw1 Hr1) as (w2 & H2 & Hr2 & Hwin2 & Hwm2).
    exists w2. split; [exact H2|]. split; [exact Hr2|].
    split; congruence.
Qed.

(** One pointer move of a resize, seen from the shell: whatever the
    layout has made of the window since the press, the move fixes the
    size the press position and the pointer ask for. *)
Lemma deliver_mouseMove_resize h ev s w init anchor :
  objects s !! h = Some w -> resize_pending init anchor w ->
  exists s1 w1,
    deliver_mouseMove h ev s = Ok s1 /\
    objects s1 !! h = Some w1 /\
    resized_to init anchor
      (mkSize (Z.max 200 (rwidth init + (px (globalPos ev) - px anchor)))
              (Z.max 100 (rheight init + (py (globalPos ev) - py anchor)))) w1 /\
    windows s1 = windows s /\ workspace_manager s1 = workspace_manager s.
Proof.
  intros Hw (Hd & Hr & Hi & Hs).
  unfold deliver_mouseMove, the_object. rewrite Hw. cbn [rbind].
  unfold mouseMoveEvent. rewrite Hd, Hr, Hi, Hs. cbn [rbind fst].
  eexists. eexists. split; [reflexivity|].
  cbn [objects set_objects]. rewrite lookup_insert_eq.
  split; [reflexivity|]. split; [|split; reflexivity].
  repeat split; assumption.
Qed.

Lemma resized_pending init anchor sz w :
  resized_to init anchor sz w -> resize_pending init anchor w.
Proof. now intros [H _]. Qed.

Lemma resize_moves_on_last h init anchor ev k moves s w :
  objects s !! h = Some w -> resize_pending init anchor w ->
  exists s' w',
    resize_moves_on h (moves ++ [(ev, k)]) s = Ok s' /\
    objects s' !! h = Some w' /\
    resized_to init anchor
      (mkSize (Z.max 200 (rwidth init + (px (globalPos ev) - px anchor)))
              (Z.max 100 (rheight init + (py (globalPos ev) - py anchor)))) w' /\
    windows s' = windows s /\ workspace_manager s' = workspace_manager s.
Proof.
  revert s w. induction moves as [|[e j] moves IH]; intros s w Hw Hp.
  - destruct (deliver_mouseMove_resize h ev s w init anchor Hw Hp)
      as (s1 & w1 & Hm & Hw1 & Hr1 & Hwin & Hwm).
    destruct (relayout_of_iter_resized k h s1 w1 _ _ _ Hw1 Hr1)
      as (w2 & Hw2 & Hr2 & Hwin2 & Hwm2).
    cbn [app resize_moves_on]. rewrite Hm. cbn [rbind].
    eexists. exists w2. split; [reflexivity|]. split; [exact Hw2|].
    split; [exact Hr2|]. split; congruence.
  - destruct (deliver_mouseMove_resize h e s w init anchor Hw Hp)
      as (s1 & w1 & Hm & Hw1 & Hr1 & Hwin & Hwm).
    destruct (relayout_of_iter_resized j h s1 w1 _ _ _ Hw1 Hr1)
      as (w2 & Hw2 & Hr2 & Hwin2 & Hwm2).
    destruct (IH _ w2 Hw2 (resized_pending _ _ _ _ Hr2))
      as (s' & w' & Hms & Hw' & Hr' & Hwin' & Hwm').
    cbn [app resize_moves_on]. rewrite Hm. cbn [rbind].
    exists s', w'. split; [exact Hms|]. split; [exact Hw'|].
    split; [exact Hr'|]. split; congruence.
Qed.

Lemma press_corner_pending ev w :
  is_left (button ev) = true -> titlebar_height < ev_y ev ->
  width w - 12 <= ev_x ev -> height w - 12 <= ev_y ev ->
  _dragging w = false ->
  resize_pending (geometry w) (globalPos ev) (fst (mousePressEvent ev w)).
Proof.
  intros Hl Hy Hx Hh Hd. unfold mousePressEvent. rewrite Hl.
  destruct (Z.leb_spec (ev_y ev) titlebar_height) as [Hle|_]; [lia|].
  destruct (Z.leb_spec (width w - 12) (ev_x ev)) as [_|?]; [|lia].
  destruct (Z.leb_spec (height w - 12) (ev_y ev)) as [_|?]; [|lia].
  cbn. repeat split. exact Hd.
Qed.

Lemma placed_keeps_fixed_size tk n items objs h w :
  fixed_size w = Some (size (geometry w)) ->
  size (geometry (placed tk n items objs h w)) = size (geometry w).
Proof.
  intros Hf. unfold placed.
  destruct (decide (h ∈ items)); [|reflexivity].
  destruct (visible w); [|reflexivity].
  unfold setGeometry. rewrite Hf. reflexivity.
Qed.

(** X4: A resize of a live window with no drag pending, from press to
    release as the shell sees it: a left press in the corner below the
    title bar, at least one pointer move, each followed by any number of
    passes of the canvas layout, then a release.  Afterwards the size is
    the size at the press plus the last pointer position minus the
    press position, floored at 200x100; that size is the window's fixed
    size, which no layout pass changes; the window is idle; the ring and
    the workspaces are as before.  Where the window ends up is the
    layout's choice. *)
Theorem resize_gesture_fixes_size (h : handle) (press rel ev : QMouseEvent)
    (k : nat) (moves : list (QMouseEvent * nat)) (s : PyShellApp)
    (w : InternalWindow)
    (Hlive : objects s !! h = Some w)
    (Hleft : is_left (button press) = true)
    (Hbar : titlebar_height < ev_y press)
    (Hx : width w - 12 <= ev_x press) (Hy : height w - 12 <= ev_y press)
    (Hidle : _dragging w = false) :
  exists s' w',
    resize_gesture_on h press (moves ++ [(ev, k)]) rel s = Ok s' /\
    objects s' !! h = Some w' /\
    _dragging w' = false /\ _resizing w' = false /\
    size (geometry w') =
      mkSize (Z.max 200 (rwidth (geometry w) + (px (globalPos ev) - px (globalPos press))))
             (Z.max 100 (rheight (geometry w) + (py (globalPos ev) - py (globalPos press)))) /\
    fixed_size w' = Some (size (geometry w')) /\
    200 <= width w' /\ 100 <= height w' /\
    (forall tk n items objs,
       size (geometry (placed tk n items objs h w')) = size (geometry w')) /\
    windows s' = windows s /\
    workspace_manager s' = workspace_manager s.
Proof.
  pose proof (press_corner_pending press w Hleft Hbar Hx Hy Hidle) as Hp.
  assert (H0 : objects (deliver_mousePress h press s) !! h
               = Some (fst (mousePressEvent press w))).
  { unfold deliver_mousePress. rewrite Hlive. cbn. apply lookup_insert_eq. }
  destruct (deliver_mousePress_frame h press s) as [Hwin0 Hwm0].
  destruct (resize_moves_on_last h _ _ ev k moves _ _ H0 Hp)
    as (s1 & w1 & Hm & Hw1 & (Hp1 & Hf1 & Hs1) & Hwin1 & Hwm1).
  unfold resize_gesture_on. rewrite Hm. cbn [rbind].
  unfold deliver_mouseRelease, the_object. rewrite Hw1. cbn [rbind].
  eexists. eexists. split; [reflexivity|].
  cbn [objects set_objects windows workspace_manager]. rewrite lookup_insert_eq.
  split; [reflexivity|].
  assert (Hfix : fixed_size (mouseReleaseEvent rel w1)
                 = Some (size (geometry (mouseReleaseEvent rel w1)))).
  { cbn. now rewrite Hs1. }
  split; [reflexivity|]. split; [reflexivity|].
  split; [exact Hs1|]. split; [exact Hfix|].
  assert (Hwh : width (mouseReleaseEvent rel w1)
                  = Z.max 200 (rwidth (geometry w) + (px (globalPos ev) - px (globalPos press)))
                /\ height (mouseReleaseEvent rel w1)
                  = Z.max 100 (rheight (geometry w) + (py (globalPos ev) - py (globalPos press)))).
  { unfold width, height. cbn [geometry mouseReleaseEvent].
    unfold size in Hs1. injection Hs1 as Hw' Hh'. split; assumption. }
  destruct Hwh as [-> ->].
  split; [lia|]. split; [lia|].
  split; [intros tk n items objs; now apply placed_keeps_fixed_size|].
  split; congruence.
Qed.

Lemma resize_gesture_fixes_size_witness :
  exists s' w',
    resize_gesture_on 0%nat (Samples.press 1259 651 (mkPoint 1267 707))
      ([(Samples.move_to (mkPoint 1100 600), 1%nat)]
         ++ [(Samples.move_to (mkPoint 867 407), 1%nat)])
      (Samples.move_to (mkPoint 867 407)) Samples.editor_alone = Ok s' /\
    objects s' !! 0%nat = Some w' /\
    _dragging w' = false /\ _resizing w' = false /\
    size (geometry w') =
      mkSize (Z.max 200 (rwidth (mkRect 8 8 1264 656) + (867 - 1267)))
             (Z.max 100 (rheight (mkRect 8 8 1264 656) + (407 - 707))) /\
    fixed_size w' = Some (size (geometry w')) /\
    200 <= width w' /\ 100 <= height w' /\
    (forall tk n items objs,
       size (geometry (placed tk n items objs 0%nat w')) = size (geometry w')) /\
    windows s' = windows Samples.editor_alone /\
    workspace_manager s' = workspace_manager Samples.editor_alone.
Proof.
  apply (resize_gesture_fixes_size 0%nat (Samples.press 1259 651 (mkPoint 1267 707))
           (Samples.move_to (mkPoint 867 407)) (Samples.move_to (mkPoint 867 407))
           1%nat [(Samples.move_to (mkPoint 1100 600), 1%nat)] Samples.editor_alone
           (set_geometry_raw (mkRect 8 8 1264 656)
              (set_visible true (InternalWindow_init "Editor" (Some 0%nat))))).
  - vm_compute. reflexivity.
  - reflexivity.
  - reflexivity.
  - vm_compute. discriminate.
  - vm_compute. discriminate.
  - reflexivity.
Defined.

(** On the sample toolkit the layout pass that follows each move puts
    the shrunken window back into the middle of its canvas: the size is
    the one asked for, the origin is not the one the window had. *)
Example resize_gesture_moves_origin :
  (match resize_gesture_on 0%nat (Samples.press 1259 651 (mkPoint 1267 707))
           [(Samples.move_to (mkPoint 1100 600), 1%nat);
            (Samples.move_to (mkPoint 867 407), 1%nat)]
           (Samples.move_to (mkPoint 867 407)) Samples.editor_alone with
   | Ok s' => geometry <$> objects s' !! 0%nat
   | Raise _ => None
   end) = Some (mkRect 208 158 864 356).
Proof. vm_compute. reflexivity. Qed.

(** X5: Maximizing a window that is not maximized and whose size was never
    fixed by a resize fills the parent area inset by 10 on each side and
    below the panel height. *)
Theorem on_max_fills_parent (pg : QRect) (w : InternalWindow)
    (Hnot : is_maximized w = false) (Hfree : fixed_size w = None) :
  geometry (on_max pg w) =
    mkRect 10 (PANEL_HEIGHT + 10) (rwidth pg - 20) (rheight pg - PANEL_HEIGHT - 20) /\
  is_maximized (on_max pg w) = true /\
  visible (on_max pg w) = visible w.
Proof.
  unfold on_max, setGeometry. rewrite Hnot, Hfree. cbn. repeat split.
Qed.

Lemma on_max_fills_parent_witness :
  geometry (on_max (mkRect 0 0 1280 720) Samples.win) =
    mkRect 10 (PANEL_HEIGHT + 10) (1280 - 20) (720 - PANEL_HEIGHT - 20) /\
  is_maximized (on_max (mkRect 0 0 1280 720) Samples.win) = true /\
  visible (on_max (mkRect 0 0 1280 720) Samples.win) = visible Samples.win.
Proof.
  apply (on_max_fills_parent (mkRect 0 0 1280 720) Samples.win); reflexivity.
Defined.

(** ** Notifications and overlays *)

Lemma push_bounded_last ttl text s :
  last (notes (push ttl text s)) = Some (ttl, text).
Proof.
  cbn. unfold deque_append. rewrite length_app. cbn.
  rewrite drop_app_le by lia. apply last_snoc.
Qed.

(** X6: [push] keeps at most 60 entries: the new entry is the last one, the
    earlier ones keep their order, and only the oldest are dropped. *)
Theorem push_bounded (ttl text : string) (s : PyShellApp) :
  notes (push ttl text s)
    = drop (length (notes s) + 1 - 60) (notes s) ++ [(ttl, text)] /\
  (length (notes (push ttl text s)) <= 60)%nat /\
  last (notes (push ttl text s)) = Some (ttl, text) /\
  windows (push ttl text s) = windows s /\
  objects (push ttl text s) = objects s.
Proof.
  assert (H : notes (push ttl text s)
              = drop (length (notes s) + 1 - 60) (notes s) ++ [(ttl, text)]).
  { cbn. unfold deque_append. rewrite length_app. cbn.
    apply drop_app_le. lia. }
  split; [exact H|]. rewrite H.
  split; [|split; [apply last_snoc|split; reflexivity]].
  rewrite length_app, length_drop. cbn. lia.
Qed.

(** X7: Only the last display size counts, and repositioning twice is the
    same as once. *)
Theorem reposition_overlays_last_wins (sz1 sz2 : QSize) (s : PyShellApp) :
  reposition_overlays sz2 (reposition_overlays sz1 s) = reposition_overlays sz2 s /\
  reposition_overlays sz1 (reposition_overlays sz1 s) = reposition_overlays sz1 s.
Proof.
  unfold reposition_overlays.
  destruct (panel s) eqn:Hp, (dock s) eqn:Hd, (notifications s) eqn:Hn;
    cbn; rewrite ?Hp, ?Hd, ?Hn; split; reflexivity.
Qed.

(** X8: While one of the overlays does not exist yet, [reposition_overlays]
    does nothing. *)
Theorem reposition_overlays_guard (sz : QSize) (s : PyShellApp)
    (Hmissing : panel s = None \/ dock s = None \/ notifications s = None) :
  reposition_overlays sz s = s.
Proof.
  unfold reposition_overlays.
  destruct Hmissing as [H|[H|H]]; rewrite H;
    destruct (panel s); try destruct (dock s); reflexivity.
Qed.

Lemma reposition_overlays_guard_witness :
  reposition_overlays (mkSize 1280 720)
    (set_overlays None None None Samples.desktop)
  = set_overlays None None None Samples.desktop.
Proof.
  apply reposition_overlays_guard. left. reflexivity.
Defined.

(** X9: On a display at least 412 wide and 456 high the three overlays lie
    inside the display, the dock and the notification area start below
    the panel, and the dock ends left of the notification area. *)
Theorem overlays_inside_display (sz : QSize) (s : PyShellApp) (p d n : QRect)
    (Hp : panel s = Some p) (Hd : dock s = Some d) (Hn : notifications s = Some n)
    (Hw : 412 <= sz_width sz) (Hh : 456 <= sz_height sz) :
  exists p' d' n',
    panel (reposition_overlays sz s) = Some p' /\
    dock (reposition_overlays sz s) = Some d' /\
    notifications (reposition_overlays sz s) = Some n' /\
    (rx p' = 0 /\ ry p' = 0 /\ rx p' + rwidth p' = sz_width sz) /\
    (ry p' + rheight p' <= ry d' /\ ry p' + rheight p' <= ry n') /\
    (0 <= rx d' /\ ry d' + rheight d' <= sz_height sz) /\
    (rx n' + rwidth n' <= sz_width sz /\ ry n' + rheight n' <= sz_height sz) /\
    rx d' + rwidth d' <= rx n'.
Proof.
  unfold reposition_overlays. rewrite Hp, Hd, Hn. cbn.
  do 3 eexists. split; [reflexivity|]. split; [reflexivity|]. split; [reflexivity|].
  cbn. unfold PANEL_HEIGHT, DOCK_WIDTH. lia.
Qed.

Lemma overlays_inside_display_witness :
  exists p' d' n',
    panel (reposition_overlays (mkSize 1280 720) Samples.desktop) = Some p' /\
    dock (reposition_overlays (mkSize 1280 720) Samples.desktop) = Some d' /\
    notifications (reposition_overlays (mkSize 1280 720) Samples.desktop) = Some n' /\
    (rx p' = 0 /\ ry p' = 0 /\ rx p' + rwidth p' = 1280) /\
    (ry p' + rheight p' <= ry d' /\ ry p' + rheight p' <= ry n') /\
    (0 <= rx d' /\ ry d' + rheight d' <= 720) /\
    (rx n' + rwidth n' <= 1280 /\ ry n' + rheight n' <= 720) /\
    rx d' + rwidth d' <= rx n'.
Proof.
  apply (overlays_inside_display (mkSize 1280 720) Samples.desktop
           (mkRect 0 0 1280 48) (mkRect 8 56 64 656) (mkRect 940 56 320 400));
    vm_compute; solve [reflexivity | discriminate].
Defined.

(** ** Launching *)

Lemma lower_ascii_idem c : lower_ascii (lower_ascii c) = lower_ascii c.
Proof. destruct c as [[] [] [] [] [] [] [] []]; reflexivity. Qed.

Lemma lower_idem s : lower (lower s) = lower s.
Proof.
  induction s as [|c s IH]; [reflexivity|].
  cbn [lower]. now rewrite lower_ascii_idem, IH.
Qed.

(** X10: The kind name is case-insensitive: a name and its lower-case form
    launch the same thing. *)
Theorem launch_app_case_insensitive (Popen : list string -> result unit)
    (name : string) (s : PyShellApp) :
  launch_app Popen (lower name) s = launch_app Popen name s.
Proof. unfold launch_app. now rewrite lower_idem. Qed.

(** ** Autostart *)

Lemma run_autostart_frame Popen split cmds s :
  windows (run_autostart Popen split cmds s) = windows s /\
  objects (run_autostart Popen split cmds s) = objects s /\
  workspace_manager (run_autostart Popen split cmds s) = workspace_manager s /\
  notes (run_autostart Popen split cmds s) = notes s.
Proof.
  revert s. induction cmds as [|cmd rest IH]; intros s; [auto|].
  cbn [run_autostart].
  destruct (IH (match Popen (split cmd) with
                | Ok _ => set_spawned (spawned s ++ [split cmd]) s
                | Raise e => logger_warn ("autostart failed: " ++ cmd ++ " " ++ exn_str e) s
                end)) as (Hw & Ho & Hm & Hn).
  rewrite Hw, Ho, Hm, Hn.
  destruct (Popen (split cmd)); auto.
Qed.

(** X11: [run_autostart] tries every command of the list, in order, whatever
    happens to the others: each command is either started or logged as a
    warning, a command the system starts is among the started programs
    afterwards, nothing else is started, and no window, workspace or
    notification is touched. *)
Theorem run_autostart_tries_all (Popen : list string -> result unit)
    (split : string -> list string) (cmds : list string) (s : PyShellApp) :
  (length (spawned (run_autostart Popen split cmds s))
     + length (log (run_autostart Popen split cmds s))
   = length (spawned s) + length (log s) + length cmds)%nat /\
  (forall cmd u, cmd ∈ cmds -> Popen (split cmd) = Ok u ->
     split cmd ∈ spawned (run_autostart Popen split cmds s)) /\
  (forall argv, argv ∈ spawned (run_autostart Popen split cmds s) ->
     argv ∈ spawned s \/
     exists cmd u, cmd ∈ cmds /\ argv = split cmd /\ Popen (split cmd) = Ok u) /\
  windows (run_autostart Popen split cmds s) = windows s /\
  objects (run_autostart Popen split cmds s) = objects s /\
  workspace_manager (run_autostart Popen split cmds s) = workspace_manager s /\
  notes (run_autostart Popen split cmds s) = notes s.
Proof.
  split; [|split; [|split; [|apply run_autostart_frame]]].
  - revert s. induction cmds as [|cmd rest IH]; intros s; [cbn; lia|].
    cbn [run_autostart]. rewrite IH.
    destruct (Popen (split cmd)); cbn; rewrite length_app; cbn; lia.
  - assert (Hmono : forall cmds s argv, argv ∈ spawned s ->
              argv ∈ spawned (run_autostart Popen split cmds s)).
    { clear. induction cmds as [|cmd rest IH]; intros s argv Hin; [exact Hin|].
      cbn [run_autostart]. apply IH.
      destruct (Popen (split cmd)); cbn; [|exact Hin].
      apply elem_of_app. now left. }
    revert s. induction cmds as [|c rest IH]; intros s cmd u Hin Hok.
    + inversion Hin.
    + cbn [run_autostart]. apply elem_of_cons in Hin as [->|Hin].
      * apply Hmono. rewrite Hok. cbn. apply elem_of_app. right. now left.
      * now apply (IH _ cmd u).
  - revert s. induction cmds as [|c rest IH]; intros s argv Hin; [now left|].
    cbn [run_autostart] in Hin. apply IH in Hin as [Hin|(cmd & u & Hc & -> & Hok)].
    + destruct (Popen (split c)) as [u|e] eqn:Hp; cbn in Hin; [|now left].
      apply elem_of_app in Hin as [Hin|Hin]; [now left|].
      apply list_elem_of_singleton in Hin as ->.
      right. exists c, u. split; [now left|auto].
    + right. exists cmd, u. split; [now right|auto].
Qed.

(** ** Themes *)

Lemma set_theme_keeps tm name :
  Theme.themes (fst (fst (Theme.set_theme name tm))) = Theme.themes tm /\
  (is_Some (Theme.themes tm !! Theme.current tm) ->
   is_Some (Theme.themes (fst (fst (Theme.set_theme name tm)))
              !! Theme.current (fst (fst (Theme.set_theme name tm))))).
Proof.
  unfold Theme.set_theme.
  destruct (Theme.themes tm !! name) eqn:Hn; cbn; [|auto].
  split; [reflexivity|]. intros _. rewrite Hn. eauto.
Qed.

Lemma set_themes_keeps names tm :
  is_Some (Theme.themes tm !! Theme.current tm) ->
  Theme.themes (Theme.set_themes names tm) = Theme.themes tm /\
  is_Some (Theme.themes (Theme.set_themes names tm)
             !! Theme.current (Theme.set_themes names tm)).
Proof.
  revert tm. induction names as [|name rest IH]; intros tm Hc; [auto|].
  unfold Theme.set_themes in *. cbn [foldl].
  destruct (set_theme_keeps tm name) as [Ht Hk].
  destruct (IH _ (Hk Hc)) as [Ht' Hc'].
  rewrite Ht' , Ht in *. auto.
Qed.

(** X12: Whatever theme names are requested, known or not, the current theme
    stays one of the known themes, so [get] never fails with a missing
    theme: it yields the colour of the key, or black for an unknown key. *)
Theorem theme_get_never_fails (names : list string) (key : string) :
  exists colour,
    Theme.get key (Theme.set_themes names Theme.init) = Some colour /\
    (Theme.current (Theme.set_themes names Theme.init) = "dark"%string \/
     Theme.current (Theme.set_themes names Theme.init) = "light"%string).
Proof.
  destruct (set_themes_keeps names Theme.init) as [Ht [theme Hc]].
  { vm_compute. eauto. }
  unfold Theme.get. rewrite Hc. eexists. split; [reflexivity|].
  rewrite Ht in Hc.
  set (cur := Theme.current (Theme.set_themes names Theme.init)) in *.
  apply (elem_of_list_to_map_2
           [("dark"%string, Theme.dark); ("light"%string, Theme.light)]) in Hc.
  apply elem_of_cons in Hc as [[= Hcur _]|Hc]; [now left|].
  apply elem_of_cons in Hc as [[= Hcur _]|Hc]; [now right|].
  inversion Hc.
Qed.

(** An unknown theme name is refused: [set_theme] returns [False], logs
    nothing and leaves the manager, hence every colour, as it was. *)
Lemma set_theme_unknown (name : string) (tm : Theme.ThemeManager)
    (Hunknown : Theme.themes tm !! name = None) :
  Theme.set_theme name tm = (tm, false, []).
Proof. unfold Theme.set_theme. now rewrite Hunknown. Qed.


(** ** Workspaces and their window lists *)

Lemma list_windows_snd wm :
  snd <$> list_windows wm = layout_items <$> workspaces wm.
Proof.
  unfold list_windows. rewrite fmap_imap.
  rewrite <- (imap_const layout_items).
  apply imap_ext. reflexivity.
Qed.

Lemma list_windows_fst wm :
  fst <$> list_windows wm = seq 0 (length (workspaces wm)).
Proof.
  unfold list_windows. rewrite fmap_imap.
  transitivity (imap (fun (j : nat) (_ : Canvas) => j) (workspaces wm)).
  - apply imap_ext. reflexivity.
  - rewrite (imap_seq_0 (workspaces wm) (fun j => j)). apply list_fmap_id.
Qed.

Lemma layouts_add_child h (p : nat) (ws : list Canvas) :
  layout_items <$> alter (add_child h) p ws = layout_items <$> ws.
Proof.
  rewrite (list_fmap_alter layout_items (add_child h) (fun l => l)).
  - now apply list_alter_id.
  - apply Forall_forall. reflexivity.
Qed.

Lemma layouts_remove_child h (ws : list Canvas) :
  layout_items <$> (remove_child h <$> ws) = layout_items <$> ws.
Proof. rewrite <- list_fmap_compose. reflexivity. Qed.

Lemma layouts_add_item h (n : nat) (ws : list Canvas) :
  layout_items <$> alter (add_item h) n ws
  = alter (fun l => l ++ [h]) n (layout_items <$> ws).
Proof.
  apply (list_fmap_alter layout_items (add_item h) (fun l => l ++ [h])).
  apply Forall_forall. reflexivity.
Qed.

Lemma layouts_remove_item h (ws : list Canvas) :
  layout_items <$> (remove_item h <$> ws) = without h <$> (layout_items <$> ws).
Proof. rewrite <- !list_fmap_compose. reflexivity. Qed.

Lemma set_parent_same w n : parent w = Some n -> set_parent (Some n) w = w.
Proof. destruct w. cbn. now intros ->. Qed.

Lemma elem_of_without x h (l : list handle) :
  x ∈ without h l <-> x ∈ l /\ x <> h.
Proof. unfold without. rewrite list_elem_of_filter. tauto. Qed.

Lemma lookup_moved (L : list (list handle)) (n : nat) h (i : nat) :
  alter (fun l => l ++ [h]) n (without h <$> L) !! i
  = (fun l => if decide (n = i) then without h l ++ [h] else without h l) <$> L !! i.
Proof.
  rewrite list_lookup_alter, !list_lookup_fmap.
  destruct (decide (n = i)) as [->|]; destruct (L !! i); reflexivity.
Qed.

Lemma set_visible_same b w : visible w = b -> set_visible b w = w.
Proof. destruct w. cbn. now intros ->. Qed.

Lemma rebounded_fields w w' :
  rebounded w w' ->
  title w' = title w /\ parent w' = parent w /\ visible w' = visible w /\
  fixed_size w' = fixed_size w /\ is_maximized w' = is_maximized w /\
  _dragging w' = _dragging w /\ _resizing w' = _resizing w.
Proof. intros [g ->]. repeat split. Qed.

Lemma relaid_lookup o o' h w :
  relaid o o' -> o !! h = Some w -> exists w', o' !! h = Some w' /\ rebounded w w'.
Proof.
  intros Hr Hw. specialize (Hr h). rewrite Hw in Hr.
  inversion Hr as [? w' Hww|]; subst. eauto.
Qed.

(** What [show] does to a live window that is a child of canvas [n]: the
    window is shown, and where its canvas is on display the windows of
    the canvas layout that are shown get the bounds the layout gives
    them; hidden windows and windows of other layouts are not touched. *)
Lemma show_shape h n w s :
  objects s !! h = Some w -> parent w = Some n ->
  exists objs',
    show h s = Ok (set_objects objs' s) /\
    relaid (<[h := set_visible true w]> (objects s)) objs' /\
    forall x v, <[h := set_visible true w]> (objects s) !! x = Some v ->
      (visible v = false \/
       forall c, workspaces (workspace_manager s) !! n = Some c -> x ∉ layout_items c) ->
      objs' !! x = Some v.
Proof.
  intros Hw Hp. unfold show, the_object. rewrite Hw. cbn [rbind].
  destruct (visible w) eqn:Hv.
  - exists (objects s). split; [now rewrite set_objects_self|].
    rewrite (set_visible_same true w Hv), insert_id by exact Hw.
    split; [apply relaid_refl|]. intros x v Hx _. exact Hx.
  - rewrite Hp.
    destruct (on_display n s).
    + destruct (layout_pass_shape n
                  (set_objects (<[h := set_visible true w]> (objects s)) s))
        as (objs' & -> & Hr & Hl).
      exists objs'. split; [reflexivity|]. split; [exact Hr|].
      intros x v Hx Hout. rewrite Hl.
      cbn [workspace_manager set_objects objects toolkit]. rewrite Hx.
      destruct (workspaces (workspace_manager s) !! n) as [c|]; [|reflexivity].
      cbn. f_equal. apply placed_outside.
      destruct Hout as [Hh|Hout]; [now right|left; now apply Hout].
    + eexists. split; [reflexivity|]. split; [apply relaid_refl|].
      intros x v Hx _. exact Hx.
Qed.

(** What [add_window] does to a live window and a target the list
    accepts, as one equation. *)
Lemma add_window_effect h workspace n w s :
  objects s !! h = Some w ->
  py_position (length (workspaces (workspace_manager s)))
    (match workspace with Some i => i | None => current (workspace_manager s) end)
    = Ok n ->
  exists ws' objs',
    add_window h workspace s =
      Ok (set_focus_widget (Some h) (set_workspaces ws' (set_objects objs' s))) /\
    relaid (<[h := set_visible true (set_parent (Some n) w)]> (objects s)) objs' /\
    (forall x v l, x <> h -> objects s !! x = Some v ->
       layouts s !! n = Some l -> x ∉ l \/ visible v = false ->
       objs' !! x = Some v) /\
    layout_items <$> ws'
      = alter (fun l => l ++ [h]) n (without h <$> layouts s) /\
    length ws' = length (workspaces (workspace_manager s)).
Proof.
  intros Hw Hn. unfold add_window. rewrite Hn. cbn [rbind].
  unfold layout_addWidget, the_object. rewrite Hw. cbn [rbind].
  set (ws1 := alter (add_item h) n (remove_item h <$> workspaces (workspace_manager s))).
  assert (Hafter : forall ws objs0 w0,
    objs0 !! h = Some w0 -> parent w0 = Some n ->
    <[h := set_visible true w0]> objs0
      = <[h := set_visible true (set_parent (Some n) w)]> (objects s) ->
    layout_items <$> ws = layout_items <$> ws1 ->
    length ws = length ws1 ->
    exists ws' objs',
      (let! s2 := show h (set_objects objs0 (set_workspaces ws s)) in
       Ok (focus_me h s2))
      = Ok (set_focus_widget (Some h) (set_workspaces ws' (set_objects objs' s))) /\
      relaid (<[h := set_visible true (set_parent (Some n) w)]> (objects s)) objs' /\
      (forall x v l, x <> h -> objects s !! x = Some v ->
         layouts s !! n = Some l -> x ∉ l \/ visible v = false ->
         objs' !! x = Some v) /\
      layout_items <$> ws'
        = alter (fun l => l ++ [h]) n (without h <$> layouts s) /\
      length ws' = length (workspaces (workspace_manager s))).
  { intros ws objs0 w0 H0 Hp0 Hins Hlay Hlen.
    destruct (show_shape h n w0 (set_objects objs0 (set_workspaces ws s)) H0 Hp0)
      as (objs' & Hshow & Hr & Hkeep).
    rewrite Hshow. cbn [rbind].
    cbn [objects set_objects] in Hr, Hkeep. rewrite Hins in Hr, Hkeep.
    destruct (relaid_lookup _ _ h _ Hr (lookup_insert_eq _ _ _)) as (w' & Hw' & Hreb).
    apply rebounded_fields in Hreb as (_ & Hpar & _).
    cbn [parent set_visible set_parent] in Hpar.
    destruct (focus_me_live h (set_objects objs' (set_objects objs0 (set_workspaces ws s))) w' Hw')
      as (s3 & Hraise & ->).
    unfold raise_, the_object in Hraise. cbn [objects set_objects] in Hraise.
    rewrite Hw' in Hraise. cbn [rbind] in Hraise. rewrite Hpar in Hraise.
    injection Hraise as <-.
    exists (alter (add_child h) n ws), objs'.
    split; [reflexivity|]. split; [exact Hr|].
    split.
    - intros x v l Hne Hx Hl Hout. apply Hkeep.
      + rewrite lookup_insert_ne by congruence. exact Hx.
      + destruct Hout as [Hout|Hout]; [right|now left].
        intros c Hc. cbn [workspace_manager set_objects set_workspaces
                          set_workspace_manager workspaces] in Hc.
        assert (Hli : (layout_items <$> ws) !! n = Some (layout_items c))
          by (rewrite list_lookup_fmap, Hc; reflexivity).
        rewrite Hlay in Hli. subst ws1.
        rewrite layouts_add_item, layouts_remove_item in Hli.
        fold (layouts s) in Hli. rewrite lookup_moved, Hl in Hli. cbn in Hli.
        rewrite decide_True in Hli by reflexivity. injection Hli as <-.
        intros Hin. apply elem_of_app in Hin as [Hin|Hin].
        * apply elem_of_without in Hin. tauto.
        * apply list_elem_of_singleton in Hin. congruence.
    - split.
      + rewrite layouts_add_child, Hlay. subst ws1.
        rewrite layouts_add_item, layouts_remove_item. reflexivity.
      + rewrite length_alter, Hlen. subst ws1.
        now rewrite length_alter, length_fmap. }
  destruct (decide (parent w = Some n)) as [Hp|Hp]; cbn [rbind].
  - replace (set_workspaces ws1 s) with (set_objects (objects s) (set_workspaces ws1 s))
      by (destruct s; reflexivity).
    apply (Hafter ws1 (objects s) w Hw Hp); try reflexivity.
    now rewrite (set_parent_same w n Hp).
  - apply (Hafter (alter (add_child h) n (remove_child h <$> ws1))
             (<[h := set_visible false (set_parent (Some n) w)]> (objects s))
             (set_visible false (set_parent (Some n) w))).
    + apply lookup_insert_eq.
    + reflexivity.
    + now rewrite insert_insert_eq.
    + now rewrite layouts_add_child, layouts_remove_child.
    + now rewrite length_alter, length_fmap.
Qed.

(** X14: [add_window] with a target index in range moves a live window into
    that workspace: the snapshot of [list_windows] afterwards has the
    window at the end of the target's list and in no other list, every
    other entry is as before; the window is a child of the target canvas,
    shown, and focused; apart from that the window objects are the same
    but for the bounds the layout of the target gives them, and a window
    that is hidden or is not in that layout keeps its bounds too; the
    Focus/Z-Order Ring is not touched. *)
Theorem add_window_moves_window (h : handle) (i : Z) (w : InternalWindow)
    (s : PyShellApp)
    (Hlive : objects s !! h = Some w)
    (Hrange : 0 <= i < Z.of_nat (length (workspaces (workspace_manager s)))) :
  exists s' w',
    add_window h (Some i) s = Ok s' /\
    fst <$> list_windows (workspace_manager s')
      = fst <$> list_windows (workspace_manager s) /\
    snd <$> list_windows (workspace_manager s')
      = alter (fun l => l ++ [h]) (Z.to_nat i)
          (without h <$> (snd <$> list_windows (workspace_manager s))) /\
    objects s' !! h = Some w' /\
    rebounded (set_visible true (set_parent (Some (Z.to_nat i)) w)) w' /\
    (forall x, x <> h -> option_Forall2 rebounded (objects s !! x) (objects s' !! x)) /\
    (forall x v l, x <> h -> objects s !! x = Some v ->
       snd <$> list_windows (workspace_manager s) !! Z.to_nat i = Some l ->
       x ∉ l \/ visible v = false ->
       objects s' !! x = Some v) /\
    focus_widget s' = Some h /\
    windows s' = windows s.
Proof.
  destruct (add_window_effect h (Some i) (Z.to_nat i) w s Hlive)
    as (ws' & objs' & Ha & Hr & Hkeep & Hl & Hlen).
  { now apply py_position_in_range. }
  destruct (relaid_lookup _ _ h _ Hr (lookup_insert_eq _ _ _)) as (w' & Hw' & Hreb).
  exists (set_focus_widget (Some h) (set_workspaces ws' (set_objects objs' s))), w'.
  split; [exact Ha|].
  rewrite !list_windows_fst.
  cbn [workspace_manager set_focus_widget set_workspaces set_workspace_manager
       set_objects workspaces objects focus_widget windows].
  rewrite Hlen. split; [reflexivity|].
  split.
  { rewrite !list_windows_snd. cbn [workspaces]. exact Hl. }
  split; [exact Hw'|]. split; [exact Hreb|].
  split.
  { intros x Hne. specialize (Hr x).
    rewrite lookup_insert_ne in Hr by congruence. exact Hr. }
  split; [|split; reflexivity].
  intros x v l Hne Hx Hlw. apply (Hkeep x v l Hne Hx).
  rewrite <- list_lookup_fmap, list_windows_snd in Hlw. exact Hlw.
Qed.

Lemma add_window_moves_window_witness :
  exists s' w',
    add_window 1%nat (Some 2) Samples.three_windows = Ok s' /\
    fst <$> list_windows (workspace_manager s')
      = fst <$> list_windows (workspace_manager Samples.three_windows) /\
    snd <$> list_windows (workspace_manager s')
      = alter (fun l => l ++ [1%nat]) (Z.to_nat 2)
          (without 1%nat <$> (snd <$> list_windows (workspace_manager Samples.three_windows))) /\
    objects s' !! 1%nat = Some w' /\
    rebounded (set_visible true (set_parent (Some (Z.to_nat 2))
                 (set_visible true (InternalWindow_init "Editor" (Some 0%nat))))) w' /\
    (forall x, x <> 1%nat ->
       option_Forall2 rebounded (objects Samples.three_windows !! x) (objects s' !! x)) /\
    (forall x v l, x <> 1%nat -> objects Samples.three_windows !! x = Some v ->
       snd <$> list_windows (workspace_manager Samples.three_windows) !! Z.to_nat 2 = Some l ->
       x ∉ l \/ visible v = false ->
       objects s' !! x = Some v) /\
    focus_widget s' = Some 1%nat /\
    windows s' = windows Samples.three_windows.
Proof.
  apply (add_window_moves_window 1%nat 2).
  - vm_compute. reflexivity.
  - vm_compute. split; [discriminate|reflexivity].
Defined.

Example add_window_moves_editor :
  (match add_window 1%nat (Some 2) Samples.three_windows with
   | Ok s' => snd <$> list_windows (workspace_manager s')
   | Raise _ => []
   end) = [[0; 2]; []; [1]; []]%nat.
Proof. vm_compute. reflexivity. Qed.

(** ** Switching workspaces *)

Lemma switch_workspace_effect d s :
  0 < count (workspace_manager s) ->
  count (workspace_manager s) = Z.of_nat (length (workspaces (workspace_manager s))) ->
  exists f,
    switch_workspace d s =
      Ok (push "Workspace"
            ("Switched to " ++ pretty ((current (workspace_manager s) + d)
                                        mod count (workspace_manager s) + 1))
            (set_focus_widget f
               (set_workspace_manager
                  {| count := count (workspace_manager s);
                     workspaces := workspaces (workspace_manager s);
                     current := (current (workspace_manager s) + d)
                                  mod count (workspace_manager s);
                     stack_current := (current (workspace_manager s) + d)
                                        mod count (workspace_manager s) |}
                  s))).
Proof.
  intros Hpos Hlen. unfold switch_workspace, py_mod.
  destruct (Z.eqb_spec (count (workspace_manager s)) 0); [lia|]. cbn [rbind].
  destruct (switch_to_ok ((current (workspace_manager s) + d) mod count (workspace_manager s))
              s Hpos Hlen) as (f & Hs & _).
  rewrite Hs. cbn [rbind]. rewrite Z.mod_mod by lia.
  exists f. reflexivity.
Qed.

(** X16: [switch_workspace] with N > 0 workspaces never fails: the active
    index becomes (current + delta) mod N, stays in [0, N), the
    notification pushed names it counting from 1, and no window, canvas
    or ring entry changes. *)
Theorem switch_workspace_wraps (d : Z) (s : PyShellApp)
    (Hpos : 0 < count (workspace_manager s))
    (Hlen : count (workspace_manager s)
            = Z.of_nat (length (workspaces (workspace_manager s)))) :
  exists s',
    switch_workspace d s = Ok s' /\
    current (workspace_manager s')
      = (current (workspace_manager s) + d) mod count (workspace_manager s) /\
    0 <= current (workspace_manager s') < count (workspace_manager s) /\
    last (notes s')
      = Some ("Workspace"%string,
              ("Switched to " ++ pretty (current (workspace_manager s') + 1))%string) /\
    workspaces (workspace_manager s') = workspaces (workspace_manager s) /\
    objects s' = objects s /\ windows s' = windows s.
Proof.
  destruct (switch_workspace_effect d s Hpos Hlen) as [f ->].
  eexists. split; [reflexivity|].
  split; [reflexivity|]. split; [apply Z.mod_pos_bound; lia|].
  split; [|repeat split].
  apply push_bounded_last.
Qed.

Lemma switch_workspace_wraps_witness :
  exists s',
    switch_workspace (-1) Samples.three_windows = Ok s' /\
    current (workspace_manager s')
      = (current (workspace_manager Samples.three_windows) + -1)
          mod count (workspace_manager Samples.three_windows) /\
    0 <= current (workspace_manager s') < count (workspace_manager Samples.three_windows) /\
    last (notes s')
      = Some ("Workspace"%string,
              ("Switched to " ++ pretty (current (workspace_manager s') + 1))%string) /\
    workspaces (workspace_manager s') = workspaces (workspace_manager Samples.three_windows) /\
    objects s' = objects Samples.three_windows /\
    windows s' = windows Samples.three_windows.
Proof.
  apply (switch_workspace_wraps (-1) Samples.three_windows); vm_compute; reflexivity.
Defined.

Example switch_left_from_first :
  (match switch_workspace (-1) Samples.three_windows with
   | Ok s' => Some (current (workspace_manager s'), last (notes s'))
   | Raise _ => None
   end) = Some (3, Some ("Workspace", "Switched to 4")%string).
Proof. vm_compute. reflexivity. Qed.

(** X17: Going [delta] workspaces one way and [delta] back returns to the
    workspace one started from, when the active index was valid. *)
Theorem switch_workspace_round_trip (d : Z) (s : PyShellApp)
    (Hpos : 0 < count (workspace_manager s))
    (Hlen : count (workspace_manager s)
            = Z.of_nat (length (workspaces (workspace_manager s))))
    (Hcur : 0 <= current (workspace_manager s) < count (workspace_manager s)) :
  exists s1 s2,
    switch_workspace d s = Ok s1 /\
    switch_workspace (- d) s1 = Ok s2 /\
    current (workspace_manager s2) = current (workspace_manager s) /\
    stack_current (workspace_manager s2) = current (workspace_manager s).
Proof.
  destruct (switch_workspace_effect d s Hpos Hlen) as [f H1].
  rewrite H1. eexists.
  match goal with
  | |- exists s2, Ok ?s1 = Ok _ /\ _ =>
      destruct (switch_workspace_effect (- d) s1) as [f' H2];
        [cbn; assumption..|]
  end.
  rewrite H2. eexists. split; [reflexivity|].
  split; [reflexivity|]. cbn.
  assert (H : ((current (workspace_manager s) + d) mod count (workspace_manager s) + - d)
                mod count (workspace_manager s) = current (workspace_manager s)).
  { rewrite Zplus_mod_idemp_l.
    replace (current (workspace_manager s) + d + - d) with (current (workspace_manager s)) by lia.
    apply Z.mod_small. lia. }
  now rewrite H.
Qed.

Lemma switch_workspace_round_trip_witness :
  exists s1 s2,
    switch_workspace 3 Samples.three_windows = Ok s1 /\
    switch_workspace (- 3) s1 = Ok s2 /\
    current (workspace_manager s2) = current (workspace_manager Samples.three_windows) /\
    stack_current (workspace_manager s2) = current (workspace_manager Samples.three_windows).
Proof.
  apply (switch_workspace_round_trip 3 Samples.three_windows);
    vm_compute; try reflexivity.
  split; [discriminate|reflexivity].
Defined.

(** ** The Focus/Z-Order Ring *)


Lemma without_notin h (l : list handle) : h ∉ l -> without h l = l.
Proof.
  intros Hn. unfold without. induction l as [|y l IH]; [reflexivity|].
  rewrite filter_cons_True.
  - f_equal. apply IH. intros Hin. apply Hn. now right.
  - intros ->. apply Hn. now left.
Qed.

Lemma list_remove_without h (l : list handle) :
  NoDup l -> list_remove h l = without h l.
Proof.
  induction 1 as [|y l Hy Hnd IH]; [reflexivity|].
  cbn [list_remove]. unfold without in *.
  destruct (decide (h = y)) as [->|Hne].
  - rewrite filter_cons_False by (intros Hc; now apply Hc).
    symmetry. now apply without_notin.
  - rewrite filter_cons_True by congruence. now rewrite IH.
Qed.

(** X18: When the ring lists no handle twice, [on_window_closed] takes the
    closed handle out of it and keeps the order of the others; a handle
    that is not in the ring changes nothing.  Nothing but the ring is
    touched. *)
Theorem on_window_closed_removes (h : handle) (s : PyShellApp)
    (Hnodup : NoDup (windows s)) :
  windows (on_window_closed h s) = without h (windows s) /\
  (h ∉ windows (on_window_closed h s)) /\
  (forall x, x <> h -> (x ∈ windows (on_window_closed h s) <-> x ∈ windows s)) /\
  (h ∉ windows s -> on_window_closed h s = s) /\
  objects (on_window_closed h s) = objects s /\
  workspace_manager (on_window_closed h s) = workspace_manager s /\
  focus_widget (on_window_closed h s) = focus_widget s.
Proof.
  assert (Hw : windows (on_window_closed h s) = without h (windows s)).
  { unfold on_window_closed. destruct (decide (h ∈ windows s)) as [Hin|Hout]; cbn.
    - now apply list_remove_without.
    - symmetry. now apply without_notin. }
  split; [exact Hw|]. rewrite Hw.
  split; [rewrite elem_of_without; tauto|].
  split; [intros x Hx; rewrite elem_of_without; tauto|].
  unfold on_window_closed.
  destruct (decide (h ∈ windows s)); [|auto].
  repeat split. tauto.
Qed.

Lemma on_window_closed_removes_witness :
  windows (on_window_closed 1%nat Samples.three_windows)
    = without 1%nat (windows Samples.three_windows) /\
  (1%nat ∉ windows (on_window_closed 1%nat Samples.three_windows)) /\
  (forall x, x <> 1%nat ->
     (x ∈ windows (on_window_closed 1%nat Samples.three_windows)
      <-> x ∈ windows Samples.three_windows)) /\
  (1%nat ∉ windows Samples.three_windows ->
     on_window_closed 1%nat Samples.three_windows = Samples.three_windows) /\
  objects (on_window_closed 1%nat Samples.three_windows) = objects Samples.three_windows /\
  workspace_manager (on_window_closed 1%nat Samples.three_windows)
    = workspace_manager Samples.three_windows /\
  focus_widget (on_window_closed 1%nat Samples.three_windows)
    = focus_widget Samples.three_windows.
Proof.
  apply (on_window_closed_removes 1%nat Samples.three_windows).
  apply (bool_decide_unpack (NoDup (windows Samples.three_windows))).
  vm_compute. exact I.
Defined.

Example close_editor_ring :
  windows (on_window_closed 1%nat Samples.three_windows) = [0; 2]%nat.
Proof. vm_compute. reflexivity. Qed.

(** [list.remove] takes out one occurrence only: were a handle listed
    twice, one copy would stay in the ring. *)
Example list_remove_first_only : list_remove 1%nat [0; 1; 2; 1]%nat = [0; 2; 1]%nat.
Proof. reflexivity. Qed.

Lemma set_workspaces_self s :
  set_workspaces (workspaces (workspace_manager s)) s = s.
Proof. destruct s as [? ? ? [] ? ? ? ? ? ? ?]. reflexivity. Qed.

Lemma raise__shape h s s' :
  raise_ h s = Ok s' ->
  exists ws', s' = set_workspaces ws' s /\
    layout_items <$> ws' = layouts s /\
    length ws' = length (workspaces (workspace_manager s)).
Proof.
  unfold raise_, the_object.
  destruct (objects s !! h) as [w|]; cbn; [|discriminate].
  destruct (parent w) as [p|]; intros [= <-].
  - eexists. split; [reflexivity|]. split.
    + apply layouts_add_child.
    + apply length_alter.
  - exists (workspaces (workspace_manager s)).
    split; [now rewrite set_workspaces_self|]. split; reflexivity.
Qed.

Lemma focus_me_shape h s :
  exists f ws', focus_me h s = set_focus_widget f (set_workspaces ws' s) /\
    layout_items <$> ws' = layouts s /\
    length ws' = length (workspaces (workspace_manager s)).
Proof.
  assert (Hid : s = set_focus_widget (focus_widget s)
                      (set_workspaces (workspaces (workspace_manager s)) s)).
  { rewrite set_workspaces_self. destruct s. reflexivity. }
  unfold focus_me.
  destruct (raise_ h s) as [s1|e] eqn:H1; cbn.
  - destruct (raise__shape _ _ _ H1) as (ws' & -> & Hl & Hn).
    unfold activateWindow, setFocus, the_object. cbn.
    destruct (objects s !! h) eqn:Hh; cbn; rewrite ?Hh; cbn.
    + exists (Some h), ws'. split; [reflexivity|]. split; assumption.
    + unfold raise_, the_object in H1. rewrite Hh in H1. discriminate H1.
  - exists (focus_widget s), (workspaces (workspace_manager s)).
    split; [exact Hid|]. split; reflexivity.
Qed.

Lemma cycle_windows_shape s :
  exists f ws',
    cycle_windows s
      = set_focus_widget f (set_workspaces ws' (set_windows (rotate_front (windows s)) s)) /\
    layout_items <$> ws' = layouts s /\
    length ws' = length (workspaces (workspace_manager s)).
Proof.
  unfold cycle_windows.
  destruct (windows s) as [|w rest] eqn:Hs.
  - exists (focus_widget s), (workspaces (workspace_manager s)).
    split; [|split; reflexivity]. cbn.
    destruct s as [? ? ? [] ? ? ? ? ? ? ?]. cbn in *. now subst.
  - cbn [rotate_front].
    destruct (raise_ w (set_windows (rest ++ [w]) s)) as [s2|e] eqn:H2.
    + destruct (raise__shape _ _ _ H2) as (ws1 & -> & Hl1 & Hn1).
      destruct (focus_me_shape w (set_workspaces ws1 (set_windows (rest ++ [w]) s)))
        as (f & ws2 & -> & Hl2 & Hn2).
      exists f, ws2. split; [reflexivity|].
      split; [rewrite Hl2; exact Hl1|rewrite Hn2; exact Hn1].
    + exists (focus_widget s), (workspaces (workspace_manager s)).
      split; [|split; reflexivity].
      destruct s as [? ? ? [] ? ? ? ? ? ? ?]. reflexivity.
Qed.

(** X19: Cycling changes no window object (bounds, visibility, maximize state
    and gesture state stay as they are, so a minimized window is still
    hidden after it has been cycled to), keeps the same handles in the
    ring and the same window list in every workspace, and touches
    neither notifications nor overlays. *)
Theorem cycle_windows_keeps_windows (s : PyShellApp) :
  objects (cycle_windows s) = objects s /\
  windows (cycle_windows s) ≡ₚ windows s /\
  list_windows (workspace_manager (cycle_windows s))
    = list_windows (workspace_manager s) /\
  current (workspace_manager (cycle_windows s)) = current (workspace_manager s) /\
  notes (cycle_windows s) = notes s /\
  panel (cycle_windows s) = panel s /\ dock (cycle_windows s) = dock s.
Proof.
  destruct (cycle_windows_shape s) as (f & ws' & -> & Hl & Hn). cbn.
  split; [reflexivity|]. split.
  { destruct (windows s); cbn; [reflexivity|].
    symmetry. apply Permutation_cons_append. }
  split; [|repeat split].
  unfold list_windows. cbn.
  apply list_eq. intros i. rewrite !list_lookup_imap.
  assert (Hi : (layout_items <$> ws') !! i = layouts s !! i) by now rewrite Hl.
  unfold layouts in Hi. rewrite !list_lookup_fmap in Hi.
  destruct (ws' !! i), (workspaces (workspace_manager s) !! i); cbn in *; congruence.
Qed.

(** ** Opening and closing windows *)

Lemma launch_app_known Popen name ttl s :
  (lower name, ttl) ∈ [("terminal", "Terminal"); ("editor", "Editor");
                       ("browser", "Browser"); ("files", "Files")]%string ->
  launch_app Popen name s =
    match launch_internal ttl s with
    | Ok r => r
    | Raise e =>
        (None, push "Launch failed" (exn_str e)
                 (logger_error ("launch_app failed: " ++ exn_str e) s))
    end.
Proof.
  intros Hkind. unfold launch_app.
  repeat (apply elem_of_cons in Hkind as [[= Hname <-]|Hkind];
          [rewrite Hname; reflexivity|]).
  inversion Hkind.
Qed.

Lemma launch_internal_effect ttl n s :
  py_position (length (workspaces (workspace_manager s)))
    (current (workspace_manager s)) = Ok n ->
  exists ws' objs',
    launch_internal ttl s =
      Ok (Some (next_handle s),
          set_windows (windows s ++ [next_handle s])
            (set_focus_widget (Some (next_handle s))
               (set_workspaces ws'
                  (set_objects objs' (set_next_handle (S (next_handle s)) s))))) /\
    relaid (<[next_handle s := set_visible true (InternalWindow_init ttl (Some n))]>
              (objects s)) objs' /\
    layout_items <$> ws'
      = alter (fun l => l ++ [next_handle s]) n (without (next_handle s) <$> layouts s) /\
    length ws' = length (workspaces (workspace_manager s)).
Proof.
  intros Hn. unfold launch_internal, new_window. rewrite Hn. cbn [rbind fst snd].
  set (h := next_handle s).
  set (s1 := set_next_handle (S h) _).
  destruct (add_window_effect h None n (InternalWindow_init ttl (Some n)) s1)
    as (ws' & objs' & Ha & Hr & _ & Hl & Hlen).
  { subst s1. cbn. apply lookup_insert_eq. }
  { subst s1. cbn. rewrite length_alter. exact Hn. }
  rewrite Ha. cbn [rbind fst snd]. exists ws', objs'. split; [|split; [|split]].
  - subst s1. reflexivity.
  - subst s1. cbn in Hr. rewrite insert_insert_eq in Hr. exact Hr.
  - rewrite Hl. subst s1. unfold layouts. cbn. now rewrite layouts_add_child.
  - rewrite Hlen. subst s1. cbn. apply length_alter.
Qed.

(** X20: Launching one of the four internal kinds while the active index is
    valid opens a window: [launch_app] returns the next free handle; the
    new window is, but for the bounds the layout gives it, the window
    [InternalWindow.__init__] builds, shown: titled after the kind, child
    of the active workspace, not maximized, in no gesture; it holds
    keyboard focus; its handle is appended to the back of the
    Focus/Z-Order Ring and to the active workspace's window list; the
    windows there were are the same but for their bounds; no
    notification is pushed. *)
Theorem launch_app_opens_window (Popen : list string -> result unit)
    (name ttl : string) (s : PyShellApp)
    (Hkind : (lower name, ttl) ∈
               [("terminal", "Terminal"); ("editor", "Editor");
                ("browser", "Browser"); ("files", "Files")]%string)
    (Hcur : 0 <= current (workspace_manager s)
            < Z.of_nat (length (workspaces (workspace_manager s)))) :
  fst (launch_app Popen name s) = Some (next_handle s) /\
  (exists w',
     objects (snd (launch_app Popen name s)) !! next_handle s = Some w' /\
     rebounded
       (set_visible true
          (InternalWindow_init ttl (Some (Z.to_nat (current (workspace_manager s))))))
       w') /\
  (forall x, x <> next_handle s ->
     option_Forall2 rebounded (objects s !! x)
       (objects (snd (launch_app Popen name s)) !! x)) /\
  windows (snd (launch_app Popen name s)) = windows s ++ [next_handle s] /\
  focus_widget (snd (launch_app Popen name s)) = Some (next_handle s) /\
  next_handle (snd (launch_app Popen name s)) = S (next_handle s) /\
  snd <$> list_windows (workspace_manager (snd (launch_app Popen name s)))
    = alter (fun l => l ++ [next_handle s]) (Z.to_nat (current (workspace_manager s)))
        (without (next_handle s) <$> (snd <$> list_windows (workspace_manager s))) /\
  current (workspace_manager (snd (launch_app Popen name s)))
    = current (workspace_manager s) /\
  notes (snd (launch_app Popen name s)) = notes s.
Proof.
  destruct (launch_internal_effect ttl _ s (py_position_in_range _ _ Hcur))
    as (ws' & objs' & Hl & Hr & Hlay & Hlen).
  rewrite (launch_app_known Popen name ttl s Hkind), Hl. cbn [fst snd].
  rewrite !list_windows_snd.
  cbn [workspace_manager set_focus_widget set_workspaces set_workspace_manager
       set_objects set_windows set_next_handle workspaces objects focus_widget
       windows next_handle current notes].
  split; [reflexivity|]. split.
  { apply (relaid_lookup _ _ _ _ Hr). apply lookup_insert_eq. }
  split.
  { intros x Hne. specialize (Hr x).
    rewrite lookup_insert_ne in Hr by congruence. exact Hr. }
  rewrite Hlay. repeat split.
Qed.

Lemma launch_app_opens_window_witness :
  let s := Samples.editor_alone in
  let r := launch_app Samples.no_program "Files" s in
  fst r = Some (next_handle s) /\
  (exists w',
     objects (snd r) !! next_handle s = Some w' /\
     rebounded
       (set_visible true
          (InternalWindow_init "Files" (Some (Z.to_nat (current (workspace_manager s))))))
       w') /\
  (forall x, x <> next_handle s ->
     option_Forall2 rebounded (objects s !! x) (objects (snd r) !! x)) /\
  windows (snd r) = windows s ++ [next_handle s] /\
  focus_widget (snd r) = Some (next_handle s) /\
  next_handle (snd r) = S (next_handle s) /\
  snd <$> list_windows (workspace_manager (snd r))
    = alter (fun l => l ++ [next_handle s]) (Z.to_nat (current (workspace_manager s)))
        (without (next_handle s) <$> (snd <$> list_windows (workspace_manager s))) /\
  current (workspace_manager (snd r)) = current (workspace_manager s) /\
  notes (snd r) = notes s.
Proof.
  apply (launch_app_opens_window Samples.no_program "Files" "Files" Samples.editor_alone).
  - vm_compute. do 3 right. left.
  - vm_compute. split; [discriminate|reflexivity].
Defined.

(** On the sample toolkit the first window of a workspace fills the
    canvas inside its margins instead of keeping the 640x360 it was
    built with. *)
Example launch_editor_laid_out :
  (geometry <$> objects Samples.editor_alone !! 0%nat) = Some (mkRect 8 8 1264 656).
Proof. vm_compute. reflexivity. Qed.

Example launch_files_fourth :
  let r := launch_app Samples.no_program "Files" Samples.three_windows in
  fst r = Some 3%nat /\ windows (snd r) = [0; 1; 2; 3]%nat /\
  snd <$> list_windows (workspace_manager (snd r)) = [[0; 1; 2; 3]; []; []; []]%nat.
Proof. vm_compute. repeat split. Qed.



Lemma on_window_closed_windows h s :
  NoDup (windows s) -> windows (on_window_closed h s) = without h (windows s).
Proof.
  intros Hnd. unfold on_window_closed.
  destruct (decide (h ∈ windows s)) as [Hin|Hout]; cbn.
  - now apply list_remove_without.
  - symmetry. now apply without_notin.
Qed.

(** What [on_close] does to a live window, as one equation: the window
    leaves the ring, is hidden and, unless that was done before, queued
    for deletion; keyboard focus [f] is the toolkit's choice, and the
    old one when the window was hidden already. *)
Lemma on_close_effect h w s :
  objects s !! h = Some w ->
  exists f,
    on_close h s =
      Ok (set_closing (if decide (h ∈ closing s) then closing s else closing s ++ [h])
            (set_focus_widget f
               (set_objects (<[h := set_visible false w]> (objects s))
                  (set_windows (windows (on_window_closed h s)) s)))) /\
    (visible w = false -> f = focus_widget s).
Proof.
  intros Hw. unfold on_close, the_object. rewrite Hw. cbn [rbind].
  assert (H0 : on_window_closed h s = set_windows (windows (on_window_closed h s)) s).
  { unfold on_window_closed. destruct (decide (h ∈ windows s)); [reflexivity|].
    destruct s; reflexivity. }
  set (l := windows (on_window_closed h s)) in *. rewrite H0. clearbody l. clear H0.
  unfold close_widget, hide, the_object.
  cbn [objects set_windows]. rewrite Hw. cbn [rbind].
  destruct (visible w) eqn:Hv; cbn [rbind closing set_focus_widget set_objects set_windows].
  - eexists. split; [|discriminate].
    destruct (decide (h ∈ closing s)); [|reflexivity].
    destruct s; reflexivity.
  - exists (focus_widget s). split; [|reflexivity].
    rewrite <- (set_visible_same false w Hv) at 1.
    rewrite (insert_id (objects s) h (set_visible false w))
      by (rewrite (set_visible_same false w Hv); exact Hw).
    destruct (decide (h ∈ closing s)); destruct s; reflexivity.
Qed.

Lemma without_snoc h (l : list handle) : h ∉ l -> without h (l ++ [h]) = l.
Proof.
  intros Hl. unfold without. rewrite filter_app.
  rewrite (filter_cons_False _ h []) by (intros Hne; now apply Hne).
  rewrite filter_nil, app_nil_r. now apply without_notin.
Qed.

(** X22: Closing a live window that was not closed before, in a shell whose
    ring lists no handle twice.  When [on_close] returns the window is
    out of the ring and hidden, but it is still a live object, in the
    window list of its workspace, waiting for deletion; every other
    window is untouched, and a second [on_close] changes nothing.  Once
    the event loop has deleted it, the object is gone, no workspace lists
    it, it does not hold keyboard focus, every other window is still
    what it was, and [on_close] on its handle fails with
    [RuntimeError]. *)
Theorem on_close_then_deleted (h : handle) (w : InternalWindow)
    (s : PyShellApp)
    (Hlive : objects s !! h = Some w) (Hnodup : NoDup (windows s))
    (Hopen : h ∉ closing s) :
  exists s',
    on_close h s = Ok s' /\
    windows s' = without h (windows s) /\
    objects s' = <[h := set_visible false w]> (objects s) /\
    list_windows (workspace_manager s') = list_windows (workspace_manager s) /\
    closing s' = closing s ++ [h] /\
    on_close h s' = Ok s' /\
    windows (deferred_delete h s') = without h (windows s) /\
    objects (deferred_delete h s') = delete h (objects s) /\
    snd <$> list_windows (workspace_manager (deferred_delete h s'))
      = without h <$> (snd <$> list_windows (workspace_manager s)) /\
    closing (deferred_delete h s') = closing s /\
    focus_widget (deferred_delete h s') <> Some h /\
    on_close h (deferred_delete h s') = Raise RuntimeError.
Proof.
  destruct (on_close_effect h w s Hlive) as (f & Hc & _).
  rewrite decide_False in Hc by exact Hopen.
  pose proof (on_window_closed_windows h s Hnodup) as Hwin.
  rewrite Hwin in Hc. rewrite Hc. eexists. split; [reflexivity|].
  set (s' := set_closing _ _).
  assert (Hin : h ∈ closing s').
  { subst s'. cbn. apply elem_of_app. right. now left. }
  assert (Hout : h ∉ windows s').
  { subst s'. cbn. intros H. apply elem_of_without in H. tauto. }
  split; [reflexivity|]. split; [reflexivity|]. split; [reflexivity|].
  split; [reflexivity|].
  split.
  { destruct (on_close_effect h (set_visible false w) s') as (f' & Hc' & Hf').
    { subst s'. cbn. apply lookup_insert_eq. }
    rewrite Hc'. rewrite decide_True by exact Hin.
    rewrite (Hf' eq_refl).
    unfold on_window_closed. rewrite decide_False by exact Hout.
    f_equal. subst s'. cbn. rewrite insert_insert_eq. reflexivity. }
  unfold deferred_delete. rewrite decide_True by exact Hin.
  rewrite !list_windows_snd.
  cbn [windows objects closing focus_widget workspace_manager workspaces
       set_closing set_focus_widget set_workspaces set_workspace_manager
       set_objects set_windows s'].
  split; [reflexivity|].
  split; [apply delete_insert_eq|].
  split; [now rewrite <- !list_fmap_compose|].
  split; [now apply without_snoc|].
  split.
  - destruct (decide (f = Some h)); [discriminate|assumption].
  - unfold on_close, the_object. cbn. rewrite delete_insert_eq, lookup_delete_eq.
    reflexivity.
Qed.

Lemma on_close_then_deleted_witness :
  exists s',
    on_close 1%nat Samples.three_windows = Ok s' /\
    windows s' = without 1%nat (windows Samples.three_windows) /\
    objects s' = <[1%nat := set_visible false
                     (set_visible true (InternalWindow_init "Editor" (Some 0%nat)))]>
                   (objects Samples.three_windows) /\
    list_windows (workspace_manager s')
      = list_windows (workspace_manager Samples.three_windows) /\
    closing s' = closing Samples.three_windows ++ [1%nat] /\
    on_close 1%nat s' = Ok s' /\
    windows (deferred_delete 1%nat s') = without 1%nat (windows Samples.three_windows) /\
    objects (deferred_delete 1%nat s') = delete 1%nat (objects Samples.three_windows) /\
    snd <$> list_windows (workspace_manager (deferred_delete 1%nat s'))
      = without 1%nat <$> (snd <$> list_windows (workspace_manager Samples.three_windows)) /\
    closing (deferred_delete 1%nat s') = closing Samples.three_windows /\
    focus_widget (deferred_delete 1%nat s') <> Some 1%nat /\
    on_close 1%nat (deferred_delete 1%nat s') = Raise RuntimeError.
Proof.
  apply (on_close_then_deleted 1%nat
           (set_visible true (InternalWindow_init "Editor" (Some 0%nat)))
           Samples.three_windows).
  - vm_compute. reflexivity.
  - apply (bool_decide_unpack (NoDup (windows Samples.three_windows))).
    vm_compute. exact I.
  - vm_compute. intros H. inversion H.
Defined.

(** Closing the Editor: right after [on_close] the ring has lost it while
    workspace 0 still lists it; the deletion takes it out of the list. *)
Example close_editor_two_steps :
  (match on_close 1%nat Samples.three_windows with
   | Ok s' =>
       Some (windows s', snd <$> list_windows (workspace_manager s'),
             snd <$> list_windows (workspace_manager (deferred_delete 1%nat s')))
   | Raise _ => None
   end)
  = Some ([0; 2], [[0; 1; 2]; []; []; []], [[0; 2]; []; []; []])%nat.
Proof. vm_compute. reflexivity. Qed.

(** ** The shell invariant *)


Lemma same_tree_refl o : same_tree o o.
Proof. intros h. destruct (o !! h); constructor. auto. Qed.

Lemma relaid_same_tree o o' : relaid o o' -> same_tree o o'.
Proof.
  intros Hr h. destruct (Hr h) as [w w' [g ->]|]; constructor. auto.
Qed.

Lemma same_tree_insert o h w w' :
  o !! h = Some w -> parent w' = parent w ->
  (visible w = false -> visible w' = false) ->
  same_tree o (<[h := w']> o).
Proof.
  intros Hw Hp Hv x. destruct (decide (h = x)) as [<-|Hne].
  - rewrite lookup_insert_eq, Hw. constructor. auto.
  - rewrite lookup_insert_ne by assumption. apply same_tree_refl.
Qed.

(** The invariant only looks at which windows are live, under which
    parent, and which are hidden. *)
Lemma shell_inv_objects s s' :
  shell_inv s ->
  same_tree (objects s) (objects s') ->
  windows s' = windows s -> closing s' = closing s ->
  next_handle s' = next_handle s ->
  count (workspace_manager s') = count (workspace_manager s) ->
  length (workspaces (workspace_manager s')) = length (workspaces (workspace_manager s)) ->
  0 <= current (workspace_manager s') < WORKSPACE_COUNT ->
  layouts s' = layouts s ->
  is_Some (panel s') /\ is_Some (dock s') /\ is_Some (notifications s') ->
  shell_inv s'.
Proof.
  intros [I_nd I_live I_fresh I_count I_len I_cur I_par I_lay I_lnd I_cl I_ov]
    Ht Hw Hcl Hn Hc Hl Hcur Hlay Hov.
  assert (Hsome : forall h, is_Some (objects s' !! h) <-> is_Some (objects s !! h)).
  { intros h. destruct (Ht h) as [a b Hab|]; split; intros [v Hv];
      try discriminate; eauto. }
  assert (Hback : forall h w', objects s' !! h = Some w' ->
            exists w, objects s !! h = Some w /\ parent w' = parent w).
  { intros h w' Hw'. specialize (Ht h). rewrite Hw' in Ht.
    inversion Ht as [w ? [Hp _]|]; subst. eauto. }
  assert (Hforth : forall h w, objects s !! h = Some w ->
            exists w', objects s' !! h = Some w' /\ parent w' = parent w /\
                       (visible w = false -> visible w' = false)).
  { intros h w Hw0. specialize (Ht h). rewrite Hw0 in Ht.
    inversion Ht as [? w' [Hp Hv]|]; subst. eauto. }
  constructor; rewrite ?Hw, ?Hcl, ?Hn, ?Hc, ?Hl, ?Hlay; try assumption.
  - intros h. rewrite Hsome. apply I_live.
  - intros h Hh. apply I_fresh. now apply Hsome.
  - intros h w' Hw'. destruct (Hback h w' Hw') as (w & Hw0 & ->). eauto.
  - intros i l h Hi Hin. destruct (I_lay i l h Hi Hin) as (w & Hw0 & Hp).
    destruct (Hforth h w Hw0) as (w' & Hw' & Hp' & _).
    exists w'. split; [exact Hw'|congruence].
  - intros h Hin. destruct (I_cl h Hin) as (w & Hw0 & Hv).
    destruct (Hforth h w Hw0) as (w' & Hw' & _ & Hv').
    exists w'. auto.
Qed.

Lemma shell_inv_frame s s' :
  shell_inv s ->
  windows s' = windows s -> objects s' = objects s -> closing s' = closing s ->
  next_handle s' = next_handle s ->
  count (workspace_manager s') = count (workspace_manager s) ->
  length (workspaces (workspace_manager s')) = length (workspaces (workspace_manager s)) ->
  0 <= current (workspace_manager s') < WORKSPACE_COUNT ->
  layouts s' = layouts s ->
  is_Some (panel s') /\ is_Some (dock s') /\ is_Some (notifications s') ->
  shell_inv s'.
Proof.
  intros Hinv Hw Ho. apply shell_inv_objects; [exact Hinv| |exact Hw].
  rewrite Ho. apply same_tree_refl.
Qed.

Lemma shell_inv_init sz : shell_inv (PyShellApp_init sz).
Proof.
  constructor; cbn.
  - apply NoDup_nil_2.
  - intros h. rewrite lookup_empty.
    split; [intros Hin; inversion Hin|intros [[x Hx] _]; discriminate].
  - intros h [x Hx]. rewrite lookup_empty in Hx. discriminate.
  - reflexivity.
  - reflexivity.
  - unfold WORKSPACE_COUNT. lia.
  - intros h w Hw. rewrite lookup_empty in Hw. discriminate.
  - intros i l h Hl Hin.
    do 4 (destruct i as [|i]; [injection Hl as <-; inversion Hin|]).
    discriminate.
  - intros i l Hl.
    do 4 (destruct i as [|i]; [injection Hl as <-; apply NoDup_nil_2|]).
    discriminate.
  - intros h Hin. inversion Hin.
  - repeat split; eauto.
Qed.

(** A window replaced by one with the same parent that is hidden if the
    old one was. *)
Lemma shell_inv_replace h w w' f s :
  shell_inv s -> objects s !! h = Some w -> parent w' = parent w ->
  (visible w = false -> visible w' = false) ->
  shell_inv (set_focus_widget f (set_objects (<[h := w']> (objects s)) s)).
Proof.
  intros Hinv Hw Hp Hv.
  apply (shell_inv_objects s); try reflexivity; try assumption.
  - now apply (same_tree_insert _ h w).
  - apply (inv_current s Hinv).
  - apply (inv_overlays s Hinv).
Qed.

Lemma shell_inv_toolkit tk s : shell_inv s -> shell_inv (set_toolkit tk s).
Proof.
  intros Hinv. apply (shell_inv_frame s); try reflexivity; try assumption.
  - apply (inv_current s Hinv).
  - apply (inv_overlays s Hinv).
Qed.

Lemma shell_inv_layout n s : shell_inv s -> shell_inv (layout_pass n s).
Proof.
  intros Hinv. destruct (layout_pass_shape n s) as (objs' & -> & Hr & _).
  apply (shell_inv_objects s); try reflexivity; try assumption.
  - now apply relaid_same_tree.
  - apply (inv_current s Hinv).
  - apply (inv_overlays s Hinv).
Qed.

Lemma shell_inv_launch_internal ttl s r :
  shell_inv s -> launch_internal ttl s = Ok r -> shell_inv (snd r).
Proof.
  intros Hinv Hr.
  assert (Hcur : 0 <= current (workspace_manager s)
                 < Z.of_nat (length (workspaces (workspace_manager s)))).
  { rewrite (inv_length s Hinv). pose proof (inv_current s Hinv) as H.
    unfold WORKSPACE_COUNT in H. lia. }
  destruct (launch_internal_effect ttl _ s (py_position_in_range _ _ Hcur))
    as (ws' & objs' & Hl & Hrel & Hlay & Hlen).
  rewrite Hl in Hr. injection Hr as <-. cbn [snd].
  set (h := next_handle s) in *.
  set (n := Z.to_nat (current (workspace_manager s))) in *.
  assert (Hfresh : objects s !! h = None).
  { destruct (objects s !! h) eqn:Hh; [|reflexivity].
    pose proof (inv_fresh s Hinv h (mk_is_Some _ _ Hh)). subst h. lia. }
  assert (Hnotin : forall i l, layouts s !! i = Some l -> h ∉ l).
  { intros i l Hi Hin. destruct (inv_layout s Hinv i l h Hi Hin) as (v & Hv & _).
    congruence. }
  assert (Hopen : h ∉ closing s).
  { intros Hin. destruct (inv_closing s Hinv h Hin) as (v & Hv & _). congruence. }
  apply (shell_inv_objects
           (set_windows (windows s ++ [h])
              (set_focus_widget (Some h)
                 (set_workspaces ws'
                    (set_objects
                       (<[h := set_visible true (InternalWindow_init ttl (Some n))]>
                          (objects s))
                       (set_next_handle (S h) s))))));
    try reflexivity.
  2:{ now apply relaid_same_tree. }
  2:{ cbn. apply (inv_current s Hinv). }
  2:{ cbn. apply (inv_overlays s Hinv). }
  destruct Hinv as [I_nd I_live I_fresh I_count I_len I_cur I_par I_lay I_lnd I_cl I_ov].
  constructor; cbn; try assumption.
  - apply NoDup_app. split; [assumption|]. split; [|apply NoDup_singleton].
    intros x Hx Hxh. apply list_elem_of_singleton in Hxh as ->.
    apply I_live in Hx as [Hx _]. rewrite Hfresh in Hx. destruct Hx. discriminate.
  - intros x. rewrite elem_of_app, list_elem_of_singleton, lookup_insert_is_Some, I_live.
    split.
    + intros [[Hx Hc]| ->]; [|split; [now left|exact Hopen]].
      split; [|exact Hc]. destruct (decide (h = x)); [now left|now right].
    + intros [[<-|[_ Hx]] Hc]; [now right|now left].
  - intros x Hx. apply lookup_insert_is_Some in Hx as [<-|[_ Hx]]; [lia|].
    apply I_fresh in Hx. lia.
  - rewrite Hlen. assumption.
  - intros x v Hx. unfold layouts. cbn. rewrite Hlay.
    destruct (decide (h = x)) as [<-|Hne].
    + rewrite lookup_insert_eq in Hx. injection Hx as <-. cbn.
      destruct (lookup_lt_is_Some_2 (layouts s) n) as [l Hl0].
      { unfold layouts. rewrite length_fmap, I_len. subst n.
        unfold WORKSPACE_COUNT in I_cur. lia. }
      exists n, (without h l ++ [h]). split; [reflexivity|].
      rewrite lookup_moved, Hl0. cbn.
      rewrite decide_True by reflexivity. split; [reflexivity|].
      apply elem_of_app. right. now left.
    + rewrite lookup_insert_ne in Hx by assumption.
      destruct (I_par x v Hx) as (p & l & Hp & Hl0 & Hin).
      exists p. eexists. split; [exact Hp|].
      rewrite lookup_moved, Hl0. cbn. split; [reflexivity|].
      destruct (decide (n = p)); [apply elem_of_app; left|];
        apply elem_of_without; auto.
  - intros i l x Hl0 Hin. unfold layouts in Hl0. cbn in Hl0.
    rewrite Hlay, lookup_moved in Hl0.
    destruct (layouts s !! i) as [l0|] eqn:Hi; [|discriminate].
    cbn in Hl0. injection Hl0 as <-.
    assert (Hcase : (x ∈ l0 /\ x <> h) \/ (x = h /\ n = i)).
    { destruct (decide (n = i)).
      - apply elem_of_app in Hin as [Hin|Hin].
        + left. now apply elem_of_without.
        + right. apply list_elem_of_singleton in Hin. auto.
      - left. now apply elem_of_without. }
    destruct Hcase as [[Hx Hne]|[-> <-]].
    + rewrite lookup_insert_ne by congruence. eauto.
    + rewrite lookup_insert_eq. eexists. split; reflexivity.
  - intros i l Hl0. unfold layouts in Hl0. cbn in Hl0.
    rewrite Hlay, lookup_moved in Hl0.
    destruct (layouts s !! i) as [l0|] eqn:Hi; [|discriminate].
    cbn in Hl0. injection Hl0 as <-.
    pose proof (I_lnd i l0 Hi) as Hnd.
    destruct (decide (n = i)); [|now apply NoDup_filter].
    apply NoDup_app. split; [now apply NoDup_filter|].
    split; [|apply NoDup_singleton].
    intros y Hy Hyh. apply list_elem_of_singleton in Hyh as ->.
    apply elem_of_without in Hy. tauto.
  - intros x Hin. destruct (I_cl x Hin) as (v & Hv & Hhid).
    exists v. split; [|exact Hhid].
    rewrite lookup_insert_ne by congruence. exact Hv.
Qed.

Lemma shell_inv_launch Popen name s :
  shell_inv s -> shell_inv (snd (launch_app Popen name s)).
Proof.
  intros Hinv.
  assert (Hfail : forall e, shell_inv
            (push "Launch failed" (exn_str e)
               (logger_error ("launch_app failed: " ++ exn_str e) s))).
  { intros e. apply (shell_inv_frame s); try reflexivity; try assumption.
    - apply (inv_current s Hinv).
    - apply (inv_overlays s Hinv). }
  assert (Hint : forall ttl, shell_inv
            (snd (match launch_internal ttl s with
                  | Ok r => r
                  | Raise e =>
                      (None, push "Launch failed" (exn_str e)
                               (logger_error ("launch_app failed: " ++ exn_str e) s))
                  end))).
  { intros ttl. destruct (launch_internal ttl s) as [r|e] eqn:Hr; [|apply Hfail].
    now apply (shell_inv_launch_internal ttl s). }
  unfold launch_app.
  destruct (String.eqb (lower name) "terminal"); [apply Hint|].
  destruct (String.eqb (lower name) "editor"); [apply Hint|].
  destruct (String.eqb (lower name) "browser"); [apply Hint|].
  destruct (String.eqb (lower name) "files"); [apply Hint|].
  destruct (Popen [lower name]) as [u|e]; cbn; [|apply Hfail].
  apply (shell_inv_frame s); try reflexivity; try assumption.
  - apply (inv_current s Hinv).
  - apply (inv_overlays s Hinv).
Qed.

Lemma shell_inv_cycle s : shell_inv s -> shell_inv (cycle_windows s).
Proof.
  intros Hinv.
  destruct (cycle_windows_shape s) as (f & ws' & -> & Hl & Hn).
  assert (Hperm : rotate_front (windows s) ≡ₚ windows s).
  { destruct (windows s); cbn; [reflexivity|].
    symmetry. apply Permutation_cons_append. }
  destruct Hinv as [I_nd I_live I_fresh I_count I_len I_cur I_par I_lay I_lnd I_cl I_ov].
  constructor; cbn; try assumption.
  - now rewrite Hperm.
  - intros h. rewrite Hperm. apply I_live.
  - now rewrite Hn.
  - unfold layouts. cbn. rewrite Hl. assumption.
  - unfold layouts. cbn. rewrite Hl. assumption.
  - unfold layouts. cbn. rewrite Hl. assumption.
Qed.

Lemma shell_inv_close h s s' :
  shell_inv s -> on_close h s = Ok s' -> shell_inv s'.
Proof.
  intros Hinv Hc.
  destruct (objects s !! h) as [w|] eqn:Hw.
  2:{ unfold on_close, the_object in Hc. rewrite Hw in Hc. discriminate. }
  destruct (on_close_effect h w s Hw) as (f & He & _).
  rewrite He in Hc. injection Hc as <-.
  pose proof (on_window_closed_windows h s (inv_nodup s Hinv)) as Hwin.
  set (cl := if decide (h ∈ closing s) then closing s else closing s ++ [h]).
  assert (Hcl : forall x, x ∈ cl <-> x = h \/ x ∈ closing s).
  { intros x. subst cl. destruct (decide (h ∈ closing s)) as [Hin|Hout].
    - split; [now right|]. intros [->|Hx]; assumption.
    - rewrite elem_of_app, list_elem_of_singleton. tauto. }
  destruct Hinv as [I_nd I_live I_fresh I_count I_len I_cur I_par I_lay I_lnd I_cl I_ov].
  constructor; cbn; try assumption.
  - rewrite Hwin. now apply NoDup_filter.
  - intros x. rewrite Hwin, elem_of_without, lookup_insert_is_Some, I_live, Hcl.
    split.
    + intros [[Hx Hc] Hne]. split; [right; split; [congruence|exact Hx]|].
      intros [?|?]; tauto.
    + intros [[<-|[Hne Hx]] Hc]; [exfalso; apply Hc; now left|].
      split; [split; [exact Hx|]|congruence].
      intros ?. apply Hc. now right.
  - intros x Hx. apply I_fresh.
    apply lookup_insert_is_Some in Hx as [<-|[_ Hx]]; eauto.
  - intros x v Hx. destruct (decide (h = x)) as [<-|Hne].
    + rewrite lookup_insert_eq in Hx. injection Hx as <-. cbn. eauto.
    + rewrite lookup_insert_ne in Hx by assumption. eauto.
  - intros i l x Hl Hin.
    destruct (I_lay i l x Hl Hin) as (v & Hv & Hpv).
    destruct (decide (h = x)) as [<-|Hne].
    + rewrite lookup_insert_eq. eexists. split; [reflexivity|]. cbn. congruence.
    + rewrite lookup_insert_ne by assumption. eauto.
  - intros x Hx. apply Hcl in Hx.
    destruct (decide (h = x)) as [<-|Hne].
    + rewrite lookup_insert_eq. eexists. split; reflexivity.
    + destruct Hx as [->|Hx]; [congruence|].
      rewrite lookup_insert_ne by assumption. auto.
Qed.

Lemma shell_inv_delete h s : shell_inv s -> shell_inv (deferred_delete h s).
Proof.
  intros Hinv. unfold deferred_delete.
  destruct (decide (h ∈ closing s)) as [Hin|Hout]; [|exact Hinv].
  assert (Hlay : forall i, (layout_items <$>
              ((fun c => remove_child h (remove_item h c))
                 <$> workspaces (workspace_manager s))) !! i
            = without h <$> layouts s !! i).
  { intros i. unfold layouts. rewrite !list_lookup_fmap.
    destruct (workspaces (workspace_manager s) !! i); reflexivity. }
  destruct Hinv as [I_nd I_live I_fresh I_count I_len I_cur I_par I_lay I_lnd I_cl I_ov].
  constructor; cbn; try assumption.
  - intros x. rewrite I_live, lookup_delete_is_Some, elem_of_without.
    split.
    + intros [Hx Hc]. split; [split; [congruence|exact Hx]|tauto].
    + intros [[Hne Hx] Hc]. split; [exact Hx|]. intros ?. apply Hc. auto.
  - intros x Hx. apply lookup_delete_is_Some in Hx as [_ Hx]. auto.
  - now rewrite length_fmap.
  - intros x v Hx. apply lookup_delete_Some in Hx as [Hne Hx].
    destruct (I_par x v Hx) as (p & l & Hp & Hl & Hxl).
    exists p, (without h l). split; [exact Hp|].
    unfold layouts. cbn. rewrite Hlay, Hl. split; [reflexivity|].
    apply elem_of_without. auto.
  - intros i l x Hl Hxl. unfold layouts in Hl. cbn in Hl. rewrite Hlay in Hl.
    destruct (layouts s !! i) as [l0|] eqn:Hi; [|discriminate].
    injection Hl as <-. apply elem_of_without in Hxl as [Hxl Hne].
    destruct (I_lay i l0 x Hi Hxl) as (v & Hv & Hp).
    exists v. split; [|exact Hp]. rewrite lookup_delete_ne by congruence. exact Hv.
  - intros i l Hl. unfold layouts in Hl. cbn in Hl. rewrite Hlay in Hl.
    destruct (layouts s !! i) as [l0|] eqn:Hi; [|discriminate].
    injection Hl as <-. apply NoDup_filter. eauto.
  - intros x Hx. apply elem_of_without in Hx as [Hx Hne].
    destruct (I_cl x Hx) as (v & Hv & Hhid).
    exists v. split; [|exact Hhid]. rewrite lookup_delete_ne by congruence. exact Hv.
Qed.

Lemma shell_inv_switch d s s' :
  shell_inv s -> switch_workspace d s = Ok s' -> shell_inv s'.
Proof.
  intros Hinv Hs.
  assert (Hpos : 0 < count (workspace_manager s)).
  { rewrite (inv_count s Hinv). reflexivity. }
  assert (Hlen : count (workspace_manager s)
                 = Z.of_nat (length (workspaces (workspace_manager s)))).
  { rewrite (inv_count s Hinv), (inv_length s Hinv). reflexivity. }
  destruct (switch_workspace_effect d s Hpos Hlen) as [f He].
  rewrite He in Hs. injection Hs as <-.
  apply (shell_inv_frame s); try reflexivity; try assumption.
  - cbn. rewrite (inv_count s Hinv). apply Z.mod_pos_bound. reflexivity.
  - apply (inv_overlays s Hinv).
Qed.

Lemma window_step_parent w w' : window_step w w' -> parent w' = parent w.
Proof.
  destruct 1 as [ev w|ev w r Hm|ev w|w|pg w].
  - unfold mousePressEvent.
    destruct (is_left (button ev)); [|reflexivity].
    destruct (ev_y ev <=? titlebar_height); [reflexivity|].
    destruct (_ && _); reflexivity.
  - unfold mouseMoveEvent in Hm.
    destruct (_dragging w).
    + destruct (_drag_offset w); [|discriminate]. now injection Hm as <-.
    + destruct (_resizing w), (_resize_initial_geom w); try (now injection Hm as <-).
      destruct (_resize_start w); [|discriminate]. now injection Hm as <-.
  - reflexivity.
  - reflexivity.
  - unfold on_max, setGeometry.
    destruct (negb (is_maximized w)), (fixed_size w); reflexivity.
Qed.

(** No handler of a window shows it: a hidden window stays hidden. *)
Lemma window_step_hidden w w' :
  window_step w w' -> visible w = false -> visible w' = false.
Proof.
  destruct 1 as [ev w|ev w r Hm|ev w|w|pg w]; intros Hv.
  - unfold mousePressEvent.
    destruct (is_left (button ev)); [|exact Hv].
    destruct (ev_y ev <=? titlebar_height); [exact Hv|].
    destruct (_ && _); exact Hv.
  - unfold mouseMoveEvent in Hm.
    destruct (_dragging w).
    + destruct (_drag_offset w); [|discriminate]. now injection Hm as <-.
    + destruct (_resizing w), (_resize_initial_geom w); try (now injection Hm as <-).
      destruct (_resize_start w); [|discriminate]. now injection Hm as <-.
  - exact Hv.
  - reflexivity.
  - unfold on_max, setGeometry.
    destruct (negb (is_maximized w)), (fixed_size w); exact Hv.
Qed.

Lemma reachable_shell_inv_aux (Popen : list string -> result unit) (s : PyShellApp) :
  reachable Popen s -> shell_inv s.
Proof.
  intros Hreach.
  induction Hreach as [sz|tk s _ IH|n s _ IH|h s _ IH|name s _ IH|s _ IH
                      |h s s' _ IH Hc|d s s' _ IH Hs
                      |h ev s _ IH|sz s _ IH|h w w' f s _ IH Hw Hstep].
  - apply shell_inv_init.
  - now apply shell_inv_toolkit.
  - now apply shell_inv_layout.
  - now apply shell_inv_delete.
  - now apply shell_inv_launch.
  - now apply shell_inv_cycle.
  - now apply (shell_inv_close h s).
  - now apply (shell_inv_switch d s).
  - unfold deliver_mousePress.
    destruct (objects s !! h) as [w|] eqn:Hw; [|exact IH].
    apply (shell_inv_replace h w); [exact IH|exact Hw| |].
    + apply (window_step_parent w), step_press.
    + apply (window_step_hidden w), step_press.
  - pose proof (inv_overlays s IH) as ([p Hp] & [d Hd] & [n Hn]).
    unfold reposition_overlays. rewrite Hp, Hd, Hn.
    apply (shell_inv_frame s); try reflexivity; try assumption.
    + apply (inv_current s IH).
    + cbn. repeat split; eauto.
  - apply (shell_inv_replace h w); [exact IH|exact Hw| |].
    + now apply window_step_parent.
    + now apply window_step_hidden.
Qed.

(** X23: Every shell reached from start-up by launching, cycling, closing,
    switching workspace, mouse and window-control events and display
    changes, with the toolkit laying out canvases and deleting closed
    windows in between, whatever bounds and focus it chooses, satisfies
    the shell invariant: the ring lists, each once, exactly the live
    windows that have not been closed; handles are never reused; there
    are four canvases and a valid active index; every live window is
    listed, once, in the workspace that is its parent and in no other;
    the overlays exist.  In particular every window of the ring shows up
    in exactly one entry of the [list_windows] snapshot, and a window
    that was closed and is not deleted yet is a live, hidden window
    outside the ring. *)
Theorem reachable_shell_inv (Popen : list string -> result unit) (s : PyShellApp)
    (Hreach : reachable Popen s) :
  shell_inv s /\
  (forall h, h ∈ windows s ->
     exists i l,
       list_windows (workspace_manager s) !! i = Some (i, l) /\ h ∈ l /\
       forall j l', list_windows (workspace_manager s) !! j = Some (j, l') ->
                    h ∈ l' -> j = i) /\
  (forall h, h ∈ closing s ->
     (h ∉ windows s) /\
     exists w, objects s !! h = Some w /\ visible w = false).
Proof.
  pose proof (reachable_shell_inv_aux Popen s Hreach) as Hinv.
  split; [exact Hinv|].
  assert (Hlw : forall j l', list_windows (workspace_manager s) !! j = Some (j, l') ->
                  layouts s !! j = Some l').
  { intros j l' Hj. unfold list_windows in Hj. rewrite list_lookup_imap in Hj.
    unfold layouts. rewrite list_lookup_fmap.
    destruct (workspaces (workspace_manager s) !! j) as [c|]; [|discriminate].
    cbn in *. now injection Hj as <-. }
  split.
  - intros h Hin.
    apply (inv_live s Hinv) in Hin as [[obj Hobj] _].
    destruct (inv_parent s Hinv h obj Hobj) as (p & l & Hp & Hl & Hhl).
    exists p, l. split; [|split; [exact Hhl|]].
    + unfold list_windows. rewrite list_lookup_imap.
      unfold layouts in Hl. rewrite list_lookup_fmap in Hl.
      destruct (workspaces (workspace_manager s) !! p) as [c|]; [|discriminate].
      cbn in *. now injection Hl as <-.
    + intros j l' Hj Hin'.
      destruct (inv_layout s Hinv j l' h (Hlw j l' Hj) Hin') as (v & Hv & Hpv).
      congruence.
  - intros h Hin. split; [|exact (inv_closing s Hinv h Hin)].
    intros Hring. apply (inv_live s Hinv) in Hring as [_ Hopen]. contradiction.
Qed.

Lemma reachable_three_windows :
  reachable Samples.no_program Samples.three_windows.
Proof. repeat apply reach_launch. apply reach_init. Qed.

(** The witness: the Editor is opened on the sample toolkit and closed;
    the shell is taken before the event loop deletes the window. *)
Lemma reachable_shell_inv_witness :
  shell_inv Samples.editor_closed /\
  (forall h, h ∈ windows Samples.editor_closed ->
     exists i l,
       list_windows (workspace_manager Samples.editor_closed) !! i = Some (i, l) /\ h ∈ l /\
       forall j l',
         list_windows (workspace_manager Samples.editor_closed) !! j = Some (j, l') ->
         h ∈ l' -> j = i) /\
  (forall h, h ∈ closing Samples.editor_closed ->
     (h ∉ windows Samples.editor_closed) /\
     exists w, objects Samples.editor_closed !! h = Some w /\ visible w = false).
Proof.
  apply (reachable_shell_inv Samples.no_program Samples.editor_closed).
  apply (reach_close _ 0%nat Samples.editor_alone).
  - unfold Samples.editor_alone. apply reach_launch, reach_toolkit, reach_init.
  - vm_compute. reflexivity.
Defined.

Example editor_closed_pending :
  closing Samples.editor_closed = [0%nat] /\
  windows Samples.editor_closed = [] /\
  snd <$> list_windows (workspace_manager Samples.editor_closed)
    = [[0]; []; []; []]%nat.
Proof. repeat split; vm_compute; reflexivity. Qed.

(** ** Consequences for reachable shells *)


(** X24: In every reachable shell, launching one of the four internal kinds
    succeeds: the handle returned was not in use, neither as an object
    nor in the ring, and it becomes the last entry of the ring and the
    focused window. *)
Theorem reachable_launch_succeeds (Popen : list string -> result unit)
    (name ttl : string) (s : PyShellApp)
    (Hreach : reachable Popen s)
    (Hkind : (lower name, ttl) ∈
               [("terminal", "Terminal"); ("editor", "Editor");
                ("browser", "Browser"); ("files", "Files")]%string) :
  exists h,
    fst (launch_app Popen name s) = Some h /\
    objects s !! h = None /\ (h ∉ windows s) /\
    (title <$> objects (snd (launch_app Popen name s)) !! h) = Some ttl /\
    windows (snd (launch_app Popen name s)) = windows s ++ [h] /\
    focus_widget (snd (launch_app Popen name s)) = Some h.
Proof.
  pose proof (reachable_shell_inv_aux Popen s Hreach) as Hinv.
  assert (Hcur : 0 <= current (workspace_manager s)
                 < Z.of_nat (length (workspaces (workspace_manager s)))).
  { rewrite (inv_length s Hinv). pose proof (inv_current s Hinv) as H.
    unfold WORKSPACE_COUNT in H. lia. }
  destruct (launch_internal_effect ttl _ s (py_position_in_range _ _ Hcur))
    as (ws' & objs' & Hl & Hr & _).
  rewrite (launch_app_known Popen name ttl s Hkind), Hl. cbn.
  assert (Hfresh : objects s !! next_handle s = None).
  { destruct (objects s !! next_handle s) eqn:Hh; [|reflexivity].
    pose proof (inv_fresh s Hinv _ (mk_is_Some _ _ Hh)). lia. }
  exists (next_handle s). split; [reflexivity|]. split; [exact Hfresh|].
  split.
  { intros Hin. apply (inv_live s Hinv) in Hin as [[x Hx] _]. congruence. }
  destruct (relaid_lookup _ _ _ _ Hr (lookup_insert_eq _ _ _)) as (w' & Hw' & Hreb).
  apply rebounded_fields in Hreb as (Ht & _).
  rewrite Hw'. cbn. rewrite Ht. repeat split.
Qed.

Lemma reachable_launch_succeeds_witness :
  exists h,
    fst (launch_app Samples.no_program "BROWSER" Samples.three_windows) = Some h /\
    objects Samples.three_windows !! h = None /\ (h ∉ windows Samples.three_windows) /\
    (title <$> objects (snd (launch_app Samples.no_program "BROWSER" Samples.three_windows)) !! h)
      = Some "Browser"%string /\
    windows (snd (launch_app Samples.no_program "BROWSER" Samples.three_windows))
      = windows Samples.three_windows ++ [h] /\
    focus_widget (snd (launch_app Samples.no_program "BROWSER" Samples.three_windows)) = Some h.
Proof.
  apply (reachable_launch_succeeds Samples.no_program "BROWSER" "Browser"
           Samples.three_windows).
  - unfold Samples.three_windows. repeat apply reach_launch. apply reach_init.
  - vm_compute. do 2 right. left.
Defined.

(** X25: In every reachable shell with a non-empty ring, [cycle_windows]
    sends the front handle to the back and gives it keyboard focus; the
    handle occurs nowhere else in the ring, so with two or more windows
    the new front is a different window from the focused one. *)
Theorem reachable_cycle_focus (Popen : list string -> result unit)
    (s : PyShellApp) (w : handle) (rest : list handle)
    (Hreach : reachable Popen s)
    (Hring : windows s = w :: rest) :
  windows (cycle_windows s) = rest ++ [w] /\
  focus_widget (cycle_windows s) = Some w /\
  (w ∉ rest) /\
  (forall v rest', rest = v :: rest' ->
     head (windows (cycle_windows s)) = Some v /\ v <> w).
Proof.
  pose proof (reachable_shell_inv_aux Popen s Hreach) as Hinv.
  assert (Hin : w ∈ windows s) by (rewrite Hring; now left).
  apply (inv_live s Hinv) in Hin as [[obj Hobj] _].
  destruct (inv_parent s Hinv w obj Hobj) as (p & l & Hp & _).
  rewrite (cycle_windows_live s w rest obj p Hring Hobj Hp). cbn.
  pose proof (inv_nodup s Hinv) as Hnd. rewrite Hring in Hnd.
  apply NoDup_cons in Hnd as [Hw _].
  split; [reflexivity|]. split; [reflexivity|]. split; [exact Hw|].
  intros v rest' ->. split; [reflexivity|].
  intros ->. apply Hw. now left.
Qed.

Lemma reachable_cycle_focus_witness :
  windows (cycle_windows Samples.three_windows) = [1; 2]%nat ++ [0%nat] /\
  focus_widget (cycle_windows Samples.three_windows) = Some 0%nat /\
  (0%nat ∉ [1; 2]%nat) /\
  (forall v rest', [1; 2]%nat = v :: rest' ->
     head (windows (cycle_windows Samples.three_windows)) = Some v /\ v <> 0%nat).
Proof.
  apply (reachable_cycle_focus Samples.no_program Samples.three_windows 0%nat [1; 2]%nat).
  - unfold Samples.three_windows. repeat apply reach_launch. apply reach_init.
  - vm_compute. reflexivity.
Defined.

(** ** Negative workspace indices *)

(** X15: Python list indexing lets [add_window] take a negative target: with N
    workspaces, index -k for 1 <= k <= N addresses workspace N - k, exactly
    as the non-negative index would. *)
Theorem add_window_negative_index (h : handle) (i : Z) (s : PyShellApp)
    (Hneg : - Z.of_nat (length (workspaces (workspace_manager s))) <= i < 0) :
  add_window h (Some i) s
  = add_window h (Some (Z.of_nat (length (workspaces (workspace_manager s))) + i)) s.
Proof.
  unfold add_window.
  rewrite py_position_negative by lia.
  rewrite py_position_in_range by lia.
  reflexivity.
Qed.

Lemma add_window_negative_index_witness :
  add_window 1%nat (Some (-1)) Samples.three_windows
  = add_window 1%nat
      (Some (Z.of_nat (length (workspaces (workspace_manager Samples.three_windows))) + -1))
      Samples.three_windows.
Proof.
  apply add_window_negative_index. vm_compute. split; discriminate || reflexivity.
Defined.

(** ** Theme requests *)

Lemma set_themes_cons name names tm :
  Theme.set_themes (name :: names) tm
  = Theme.set_themes names (fst (fst (Theme.set_theme name tm))).
Proof. reflexivity. Qed.

(** X13: Requests for unknown themes have no effect on later ones: a sequence
    of [set_theme] calls leaves the manager as the same sequence with the
    unknown names taken out would. *)
Theorem set_themes_ignores_unknown (names : list string) (tm : Theme.ThemeManager) :
  Theme.set_themes names tm
  = Theme.set_themes
      (filter (fun name => is_Some (Theme.themes tm !! name)) names) tm.
Proof.
  revert tm. induction names as [|name rest IH]; intros tm; [reflexivity|].
  rewrite set_themes_cons, IH.
  destruct (set_theme_keeps tm name) as [Ht _].
  rewrite (list_filter_iff
             (fun n => is_Some (Theme.themes (fst (fst (Theme.set_theme name tm))) !! n))
             (fun n => is_Some (Theme.themes tm !! n)))
    by (intros n; now rewrite Ht).
  destruct (Theme.themes tm !! name) as [theme|] eqn:Hn.
  - rewrite filter_cons_True by (rewrite Hn; eauto).
    now rewrite set_themes_cons.
  - rewrite filter_cons_False by (rewrite Hn; intros [x Hx]; discriminate).
    unfold Theme.set_theme. now rewrite Hn.
Qed.
